(** * tempest-influxdb: the decode / dispatch / encode pipeline

    A shallow embedding of [internal/tempest] (the report parser),
    [internal/influx] (the line-protocol encoder) and the validation of
    [internal/config], with the properties the specification states about
    them and further properties read off the code.

    Go's [float64] is Rocq's primitive binary64 [float]; [int] and [int64]
    are [Z] (the 64-bit range is written out where a conversion can leave
    it); [string] is [String.string]; [map[string]string] is
    [gmap string string]; a slice [[]float64] is [list float].  A function
    body is a value of [run]: what it returns, or the panic that ends it,
    with the lines it sent to the log.  A function that takes [*influx.Data]
    and returns [error] takes the record and returns the record as it left
    it beside the error.

    The packages this repository imports stay parameters ([Imports]): the
    JSON decoder, the dew-point routine and the network address. *)

From Stdlib Require Import ZArith Floats Ascii String DecimalString.
From stdpp Require Import base option list sorting strings gmap fin_maps.

Local Open Scope string_scope.
Local Open Scope Z_scope.

(** ** The Go runtime pieces the two packages call *)

Module Go.

(** The character [\n]. *)
Definition newline : string := String (ascii_of_nat 10) "".

(** [fmt.Sprintf("%d", n)]. *)
Definition fmt_d (n : Z) : string := NilZero.string_of_int (Z.to_int n).

Definition sign_prefix (neg : bool) : string := if neg then "-" else "".

Definition digit (n : Z) : ascii := ascii_of_nat (48 + Z.to_nat n).

(** The integer nearest to [num * 2^e], ties to even: the rounding of
    [strconv]'s exact decimal conversion. *)
Definition round_half_even (num e : Z) : Z :=
  if 0 <=? e then num * 2 ^ e
  else
    let d := 2 ^ (- e) in
    let q := num / d in
    let r := num mod d in
    if (d <? 2 * r) || ((d =? 2 * r) && Z.odd q) then q + 1 else q.

(** [fmt.Sprintf("%.2f", x)]: the exact value of [x] rounded to two
    decimals, ties to even; a sign only when the sign bit is set; NaN and
    the infinities print as words. *)
Definition fmt_f2 (x : float) : string :=
  match Prim2SF x with
  | S754_nan => "NaN"
  | S754_infinity false => "+Inf"
  | S754_infinity true => "-Inf"
  | S754_zero s => sign_prefix s +:+ "0.00"
  | S754_finite s m e =>
      let h := round_half_even (Z.pos m * 100) e in
      sign_prefix s +:+ fmt_d (h / 100) +:+ "."
        +:+ String (digit (h mod 100 / 10)) (String (digit (h mod 10)) "")
  end.

(** Neither NaN nor an infinity. *)
Definition float_finite (x : float) : bool :=
  match Prim2SF x with
  | S754_zero _ | S754_finite _ _ _ => true
  | S754_infinity _ | S754_nan => false
  end.

(** One of ['0'] to ['9']. *)
Definition is_digit (c : ascii) : bool :=
  ((48 <=? N_of_ascii c) && (N_of_ascii c <=? 57))%N.

(** [math.IsNaN]. *)
Definition math_IsNaN (x : float) : bool := PrimFloat.is_nan x.

(** [math.Round]: the nearest integer, ties away from zero; zeros,
    infinities and NaN are returned unchanged. *)
Definition math_Round (x : float) : float :=
  match Prim2SF x with
  | S754_finite s m e =>
      if 0 <=? e then x
      else
        let d := 2 ^ (- e) in
        let q := Z.pos m / d in
        let r := Z.pos m mod d in
        let n := if d <=? 2 * r then q + 1 else q in
        SF2Prim (binary_normalize prec emax (if s then - n else n) 0 s)
  | _ => x
  end.

Definition min_int64 : Z := - 2 ^ 63.
Definition max_int64 : Z := 2 ^ 63 - 1.

(** The conversions [int64(x)] and [int(x)] of a [float64]: the fraction is
    discarded (truncation towards zero).  When the value does not fit, or
    is NaN, Go leaves the result to the implementation; this is the amd64
    one (CVTTSD2SQ answers the most negative integer). *)
Definition int64_of_float (x : float) : Z :=
  match Prim2SF x with
  | S754_zero _ => 0
  | S754_finite s m e =>
      let a := if 0 <=? e then Z.pos m * 2 ^ e else Z.pos m / 2 ^ (- e) in
      let v := if s then - a else a in
      if (min_int64 <=? v) && (v <=? max_int64) then v else min_int64
  | S754_infinity _ | S754_nan => min_int64
  end.

Definition int_of_float : float -> Z := int64_of_float.

(** Arrays of a fixed size, [[1]T] and [[3]T]: the length belongs to the
    type, and an index that is a constant is checked when compiling. *)
Record array1 (T : Type) := Array1 { at1_0 : T }.
Record array3 (T : Type) := Array3 { at3_0 : T; at3_1 : T; at3_2 : T }.
Arguments Array1 {T}.
Arguments at1_0 {T}.
Arguments Array3 {T}.
Arguments at3_0 {T}.
Arguments at3_1 {T}.
Arguments at3_2 {T}.
Definition len3 {T} (a : array3 T) : Z := 3.

#[global] Instance float_inhabited : Inhabited float := populate 0%float.

(** [len] of a slice. *)
Definition len {T} (s : list T) : Z := Z.of_nat (length s).

(** [sort.Strings]: ascending in Go's [<] on strings, which compares bytes,
    as [String.le] does. *)
Definition sort_Strings (l : list string) : list string := merge_sort String.le l.

(** [strings.Join(elems, sep)]. *)
Definition strings_Join (elems : list string) (sep : string) : string :=
  String.concat sep elems.

(** Errors.  The three sentinels of package [tempest] are values of their
    own, as the package-level variables are; [errorString] is what
    [errors.New] and [fmt.Errorf] without [%w] build at run time;
    [wrapError] is [fmt.Errorf] with one [%w]. *)
Inductive error : Type :=
| ErrInvalidReportType
| ErrInsufficientData
| ErrDewPointCalculation
| errorString (s : string)
| wrapError (msg : string) (err : error).

#[global] Instance error_eq_dec : EqDecision error.
Proof. solve_decision. Defined.

(** The [Error()] method. *)
Definition Error (e : error) : string :=
  match e with
  | ErrInvalidReportType => "invalid or unsupported report type"
  | ErrInsufficientData => "insufficient observation data"
  | ErrDewPointCalculation => "dewpoint calculation failed"
  | errorString s => s
  | wrapError msg _ => msg
  end.

(** [fmt.Errorf(before + "%w" + after, err)]: the text has [err]'s message
    in the place of the verb, and [Unwrap] gives [err] back. *)
Definition fmt_Errorf_w (before : string) (err : error) (after : string) : error :=
  wrapError (before +:+ Error err +:+ after) err.

Definition Unwrap (e : error) : option error :=
  match e with wrapError _ err => Some err | _ => None end.

(** [errors.Is]. *)
Fixpoint errors_Is (err target : error) : bool :=
  bool_decide (err = target)
  || match err with wrapError _ inner => errors_Is inner target | _ => false end.

(** The process log: each [log.Printf] call with its format and operands. *)
Inductive operand : Type := Operand (T : Type) (v : T).
Arguments Operand {T}.
Record log_entry : Type := Printf { format : string; operands : list operand }.

(** A run of a function body: it returns or panics, and leaves log lines. *)
Inductive outcome (A : Type) : Type :=
| Return (a : A)
| Panic (msg : string).
Arguments Return {A}.
Arguments Panic {A}.

Definition run (A : Type) : Type := outcome A * list log_entry.

#[global] Instance run_ret : MRet run := fun A a => (Return a, []).
#[global] Instance run_bind : MBind run := fun A B f x =>
  match x with
  | (Return a, l) => let '(r, l') := f a in (r, (l ++ l')%list)
  | (Panic msg, l) => (Panic msg, l)
  end.

Definition log_Printf (fmt : string) (ops : list operand) : run unit :=
  (Return tt, [Printf fmt ops]).

Definition panic {A} (msg : string) : run A := (Panic msg, []).

(** [s[i]] on a slice. *)
Definition index {T} (s : list T) (i : nat) : run T :=
  match s !! i with
  | Some v => mret v
  | None => panic "index out of range"
  end.

(** [b[:n]]; the capacity of [b] is taken to be its length. *)
Definition slice_to {T} (b : list T) (n : Z) : run (list T) :=
  if (0 <=? n) && (n <=? len b) then mret (take (Z.to_nat n) b)
  else panic "slice bounds out of range".

(** [s[i]] with an index computed at run time: a negative index panics as
    one beyond the end does. *)
Definition index_at {T} (s : list T) (i : Z) : run T :=
  if (0 <=? i) && (i <? len s) then index s (Z.to_nat i)
  else panic "index out of range".

(** [strings.Contains(s, substr)]. *)
Fixpoint strings_Contains (s substr : string) : bool :=
  String.prefix substr s
  || match s with
     | EmptyString => false
     | String _ s' => strings_Contains s' substr
     end.

End Go.

Import Go.

(** ** Package [config] *)

Module config.

Record Config := {
  Config_Dir : string;
  Listen_Address : string;
  Influx_URL : string;
  Influx_Token : string;
  Influx_Bucket : string;
  Influx_Bucket_Rapid_Wind : string;
  Buffer : Z;
  Verbose : bool;
  Debug : bool;
  Noop : bool;
  Rapid_Wind : bool;
}.

Section validate.

(** [url.Parse] of [net/url], of which [Validate] reads the error only. *)
Variable url_Parse : string -> option error.

(** [(c *Config) Validate()]. *)
Definition Validate (c : Config) : option error :=
  let validationErrors : list string := [] in
  let validationErrors :=
    if String.eqb (Influx_URL c) "" then
      (validationErrors ++ ["INFLUX_URL is required"])%list
    else validationErrors in
  let validationErrors :=
    if String.eqb (Influx_Token c) "" then
      (validationErrors ++ ["INFLUX_TOKEN is required"])%list
    else validationErrors in
  let validationErrors :=
    if String.eqb (Influx_Bucket c) "" then
      (validationErrors ++ ["INFLUX_BUCKET is required"])%list
    else validationErrors in
  let validationErrors :=
    if negb (String.eqb (Influx_URL c) "") then
      match url_Parse (Influx_URL c) with
      | Some err =>
          (validationErrors ++ ["INFLUX_URL is not a valid URL: " +:+ Error err])%list
      | None => validationErrors
      end
    else validationErrors in
  let validationErrors :=
    if negb (String.eqb (Listen_Address c) "") then
      if negb (strings_Contains (Listen_Address c) ":") then
        (validationErrors ++ ["LISTEN_ADDRESS must include port (e.g., ':50222')"])%list
      else validationErrors
    else validationErrors in
  let validationErrors :=
    if Buffer c <=? 0 then
      (validationErrors ++ ["Buffer size must be greater than 0"])%list
    else validationErrors in
  if 0 <? len validationErrors then
    Some (errorString
      ("configuration validation failed: " +:+ strings_Join validationErrors "; "))
  else None.

End validate.

(** A [url.Parse] that finds no fault, as for every text without a control
    character or a misplaced colon. *)
Definition url_accepts : string -> option error := fun _ => None.

End config.

(** ** Package [influx] *)

Module influx.

Record Data := {
  Timestamp : Z;
  Name : string;
  Bucket : string;
  Tags : gmap string string;
  Fields : gmap string string;
}.

Definition New : Data :=
  {| Timestamp := 0; Name := ""; Bucket := ""; Tags := ∅; Fields := ∅ |}.

Definition set_Timestamp (m : Data) (t : Z) : Data :=
  {| Timestamp := t; Name := Name m; Bucket := Bucket m; Tags := Tags m; Fields := Fields m |}.
Definition set_Name (m : Data) (s : string) : Data :=
  {| Timestamp := Timestamp m; Name := s; Bucket := Bucket m; Tags := Tags m; Fields := Fields m |}.
Definition set_Bucket (m : Data) (s : string) : Data :=
  {| Timestamp := Timestamp m; Name := Name m; Bucket := s; Tags := Tags m; Fields := Fields m |}.
Definition set_Tags (m : Data) (t : gmap string string) : Data :=
  {| Timestamp := Timestamp m; Name := Name m; Bucket := Bucket m; Tags := t; Fields := Fields m |}.
Definition set_Fields (m : Data) (f : gmap string string) : Data :=
  {| Timestamp := Timestamp m; Name := Name m; Bucket := Bucket m; Tags := Tags m; Fields := f |}.

(** [tag+"="+value]. *)
Definition pair_string (kv : string * string) : string := kv.1 +:+ "=" +:+ kv.2.

(** [for k, v := range m] visits every entry once, in an order Go does not
    fix: [l] is an order the loop may take. *)
Definition ranges (m : gmap string string) (l : list (string * string)) : Prop :=
  l ≡ₚ map_to_list m.

(** The body of [Marshal] when the two loops visit the entries in the
    orders [tags_order] and [fields_order]. *)
Definition Marshal_in (tags_order fields_order : list (string * string)) (m : Data) : string :=
  let tags := sort_Strings (pair_string <$> tags_order) in
  let fields := sort_Strings (pair_string <$> fields_order) in
  Name m +:+ "," +:+ strings_Join tags "," +:+ " " +:+ strings_Join fields ","
    +:+ " " +:+ fmt_d (Timestamp m) +:+ newline.

(** [m.Marshal()] may return [s]. *)
Definition Marshals (m : Data) (s : string) : Prop :=
  ∃ tags_order fields_order,
    ranges (Tags m) tags_order ∧ ranges (Fields m) fields_order
    ∧ s = Marshal_in tags_order fields_order m.

(** [m.Marshal()], run with the loops in the order of [map_to_list]. *)
Definition Marshal (m : Data) : string :=
  Marshal_in (map_to_list (Tags m)) (map_to_list (Fields m)) m.

(** *** The layout the specification describes *)

(** [measurement,tags fields timestamp\n]: one comma after the measurement
    and between pairs, one space before the fields and before the
    timestamp, one newline at the end. *)
Definition line (name : string) (tags fields : list (string * string)) (timestamp : Z) : string :=
  name +:+ "," +:+ strings_Join (pair_string <$> tags) "," +:+ " "
    +:+ strings_Join (pair_string <$> fields) "," +:+ " " +:+ fmt_d timestamp +:+ newline.

(** [s] is the line of [m] with every tag and every field written once, the
    pairs of each segment ascending in [R]. *)
Definition encodes_sorted_by (R : relation (string * string)) (m : Data) (s : string) : Prop :=
  ∃ tags fields,
    ranges (Tags m) tags ∧ ranges (Fields m) fields
    ∧ Sorted R tags ∧ Sorted R fields
    ∧ s = line (Name m) tags fields (Timestamp m).

(** Ascending by key, as the specification words it. *)
Definition by_key : relation (string * string) :=
  fun kv1 kv2 => String.le kv1.1 kv2.1.

(** Ascending by the joined [key=value] text, which is what [Marshal] sorts. *)
Definition by_pair_string : relation (string * string) :=
  fun kv1 kv2 => String.le (pair_string kv1) (pair_string kv2).

#[global] Instance by_pair_string_dec : RelDecision by_pair_string :=
  fun kv1 kv2 => decide (String.le (pair_string kv1) (pair_string kv2)).

(** Every byte of the key is above ['='] (61). *)
Definition key_above_equals (k : string) : bool :=
  forallb (fun c => 61 <? N_of_ascii c)%N (list_ascii_of_string k).

Definition keys_above_equals (m : gmap string string) : Prop :=
  map_Forall (fun k _ => key_above_equals k = true) m.

(** The entries of a map, ascending in the text of the pair. *)
Definition sorted_entries (mp : gmap string string) : list (string * string) :=
  merge_sort by_pair_string (map_to_list mp).

(** The records of the encoder's test and of a field name with a digit
    behind another field's name. *)
Definition weather_record : Data := {|
  Timestamp := 1640995200;
  Name := "weather";
  Bucket := "";
  Tags := <["station" := "ST-123"]> ∅;
  Fields := <["humidity" := "60.0"]> (<["temp" := "25.5"]> ∅) |}.

Definition two_probes_record : Data := {|
  Timestamp := 1640995200;
  Name := "weather";
  Bucket := "";
  Tags := <["station" := "ST-123"]> ∅;
  Fields := <["temp2" := "26.0"]> (<["temp" := "25.5"]> ∅) |}.

End influx.

(** ** Package [tempest] *)

Module tempest.
Import config influx.

(** [PrecipType], an [int], with its four constants. *)
Definition PrecipType : Type := Z.
Definition PrecipNone : PrecipType := 0.
Definition PrecipRain : PrecipType := 1.
Definition PrecipHail : PrecipType := 2.
Definition PrecipRainHail : PrecipType := 3.

(** [(p PrecipType) String()]. *)
Definition PrecipType_String (p : PrecipType) : run string :=
  let types := ["none"; "rain"; "hail"; "rain+hail"] in
  if p <? len types then index_at types p else mret "unknown".

Definition PrecipitationTypeStrings : list string := ["none"; "rain"; "hail"; "rain+hail"].

Record Report := {
  StationSerial : string;
  ReportType : string;
  HubSerial : string;
  Obs : array1 (list float);
  Ob : array3 float;
  Evt : list float;
  FirmwareRevision : Z;
  Uptime : Z;
  Timestamp : Z;
  ResetFlags : string;
  Seq : Z;
  Fs : list float;
  Radio_Stats : list float;
  Mqtt_Stats : list float;
  Voltage : float;
  RSSI : float;
  HubRSSI : float;
  SensorStatus : Z;
  Debug : Z;
}.

(** What the package takes from outside the repository: [net.UDPAddr] with
    its rendering under [%v], [encoding/json]'s decoder on a zero [Report],
    and [dewpoint.Calculate]. *)
Class Imports := {
  UDPAddr : Type;
  UDPAddr_String : UDPAddr -> string;
  json_Decode : list Byte.byte -> Report + error;
  dewpoint_Calculate : float -> float -> float * option error;
}.

(** The struct each extractor declares for itself. *)
Module Obs.
Record t := {
  Timestamp : Z;
  WindLull : float;
  WindAvg : float;
  WindGust : float;
  WindDirection : Z;
  WindSampleInterval : Z;
  StationPressure : float;
  AirTemperature : float;
  RelativeHumidity : float;
  Illuminance : Z;
  UV : float;
  SolarRadiation : Z;
  PrecipitationAccumulation : float;
  PrecipitationType : Z;
  StrikeAvgDistance : Z;
  StrikeCount : Z;
  Battery : float;
  Interval : Z;
}.
End Obs.

Module RapidWind.
Record t := {
  Timestamp : Z;
  WindSpeed : float;
  WindDirection : Z;
}.
End RapidWind.

Module RainEvent.
Record t := { Timestamp : Z }.
End RainEvent.

Module LightningStrike.
Record t := {
  Timestamp : Z;
  Distance : Z;
  Energy : Z;
}.
End LightningStrike.

Module AirObs.
Record t := {
  Timestamp : Z;
  StationPressure : float;
  AirTemperature : float;
  RelativeHumidity : float;
  StrikeCount : Z;
  StrikeAvgDistance : Z;
  Battery : float;
  ReportInterval : Z;
}.
End AirObs.

Module SkyObs.
Record t := {
  Timestamp : Z;
  Illuminance : Z;
  UV : Z;
  RainAccumulation : float;
  WindLull : float;
  WindAvg : float;
  WindGust : float;
  WindDirection : Z;
  Battery : float;
  ReportInterval : Z;
  SolarRadiation : Z;
  LocalDayRainAccumulation : float;
  PrecipitationType : Z;
  WindSampleInterval : Z;
}.
End SkyObs.

(** [if cond { log.Printf(...) }]. *)
Definition log_if (cond : bool) (fmt : string) (ops : list operand) : run unit :=
  if cond then log_Printf fmt ops else mret tt.

(** [if err != nil { log.Printf(...) }]. *)
Definition log_err (err : option error) (fmt : string) (ops : error -> list operand) : run unit :=
  match err with
  | Some e => log_Printf fmt (ops e)
  | None => mret tt
  end.

(** *** The field tables of the specification *)

(** The fifteen fields of an [obs_st] record. *)
Definition obs_st_keys : gset string :=
  list_to_set [ "battery"; "dew_point"; "illuminance"; "p"; "precipitation";
    "precipitation_type"; "solar_radiation"; "strike_count"; "strike_distance";
    "temp"; "uv"; "wind_avg"; "wind_direction"; "wind_gust"; "wind_lull" ].

(** The float-valued quantities among them, with their places in the array. *)
Definition obs_st_floats : list (string * nat) :=
  [ ("battery", 16); ("p", 6); ("precipitation", 12); ("temp", 7); ("uv", 10);
    ("wind_avg", 2); ("wind_gust", 3); ("wind_lull", 1) ]%nat.

(** The integer-valued quantities, rounded from their places in the array. *)
Definition obs_st_integers : list (string * nat) :=
  [ ("illuminance", 9); ("precipitation_type", 13); ("solar_radiation", 11);
    ("strike_count", 15); ("strike_distance", 14); ("wind_direction", 4) ]%nat.

(** [fields] holds every float-valued quantity of [floats] to two decimals
    and every integer-valued quantity of [integers] as a plain integer. *)
Definition formats (data : list float) (floats integers : list (string * nat))
    (fields : gmap string string) : Prop :=
  Forall (fun '(k, i) => fields !! k = Some (fmt_f2 (data !!! i))) floats
  ∧ Forall (fun '(k, i) =>
      fields !! k = Some (fmt_d (int_of_float (math_Round (data !!! i))))) integers.

(** The ten fields every [obs_sky] record has. *)
Definition obs_sky_keys : gset string :=
  list_to_set [ "battery"; "illuminance"; "precipitation"; "precipitation_type";
    "solar_radiation"; "uv"; "wind_avg"; "wind_direction"; "wind_gust"; "wind_lull" ].

Section extractors.
Context {imports : Imports}.

Definition parseObservation (cfg : Config) (report : Report) (m : Data)
  : run (Data * option error) :=
  if len (at1_0 (Obs report)) <? 18 then
    mret (m, Some (fmt_Errorf_w "" ErrInsufficientData
      (": expected 18 fields, got " +:+ fmt_d (len (at1_0 (Obs report))))))
  else
    let data := at1_0 (Obs report) in
    d0 ← index data 0; d1 ← index data 1; d2 ← index data 2;
    d3 ← index data 3; d4 ← index data 4; d5 ← index data 5;
    d6 ← index data 6; d7 ← index data 7; d8 ← index data 8;
    d9 ← index data 9; d10 ← index data 10; d11 ← index data 11;
    d12 ← index data 12; d13 ← index data 13; d14 ← index data 14;
    d15 ← index data 15; d16 ← index data 16; d17 ← index data 17;
    let observation := {|
      Obs.Timestamp := int64_of_float d0;
      Obs.WindLull := d1;
      Obs.WindAvg := d2;
      Obs.WindGust := d3;
      Obs.WindDirection := int_of_float (math_Round d4);
      Obs.WindSampleInterval := int_of_float (math_Round d5);
      Obs.StationPressure := d6;
      Obs.AirTemperature := d7;
      Obs.RelativeHumidity := d8;
      Obs.Illuminance := int_of_float (math_Round d9);
      Obs.UV := d10;
      Obs.SolarRadiation := int_of_float (math_Round d11);
      Obs.PrecipitationAccumulation := d12;
      Obs.PrecipitationType := int_of_float (math_Round d13);
      Obs.StrikeAvgDistance := int_of_float (math_Round d14);
      Obs.StrikeCount := int_of_float (math_Round d15);
      Obs.Battery := d16;
      Obs.Interval := int_of_float (math_Round d17) |} in
    log_if (config.Debug cfg) "OBS_ST %+v %+v" [Operand report; Operand observation];;
    let '(dp, err) :=
      dewpoint_Calculate (Obs.AirTemperature observation) (Obs.RelativeHumidity observation) in
    log_err err "dewpoint.Calculate(%f, %f): %v"
      (fun e => [Operand (Obs.AirTemperature observation);
                 Operand (Obs.RelativeHumidity observation); Operand e]);;
    let m := set_Timestamp m (Obs.Timestamp observation) in
    let m := set_Fields m (list_to_map [
      ("battery", fmt_f2 (Obs.Battery observation));
      ("dew_point", fmt_f2 dp);
      ("illuminance", fmt_d (Obs.Illuminance observation));
      ("p", fmt_f2 (Obs.StationPressure observation));
      ("precipitation", fmt_f2 (Obs.PrecipitationAccumulation observation));
      ("precipitation_type", fmt_d (Obs.PrecipitationType observation));
      ("solar_radiation", fmt_d (Obs.SolarRadiation observation));
      ("strike_count", fmt_d (Obs.StrikeCount observation));
      ("strike_distance", fmt_d (Obs.StrikeAvgDistance observation));
      ("temp", fmt_f2 (Obs.AirTemperature observation));
      ("uv", fmt_f2 (Obs.UV observation));
      ("wind_avg", fmt_f2 (Obs.WindAvg observation));
      ("wind_direction", fmt_d (Obs.WindDirection observation));
      ("wind_gust", fmt_f2 (Obs.WindGust observation));
      ("wind_lull", fmt_f2 (Obs.WindLull observation)) ]) in
    mret (m, None).

Definition parseRapidWind (cfg : Config) (report : Report) (m : Data)
  : run (Data * option error) :=
  if len3 (Ob report) <? 3 then
    mret (m, Some (fmt_Errorf_w "" ErrInsufficientData
      (": expected 3 fields, got " +:+ fmt_d (len3 (Ob report)))))
  else
    let rapidWind := {|
      RapidWind.Timestamp := int64_of_float (at3_0 (Ob report));
      RapidWind.WindSpeed := at3_1 (Ob report);
      RapidWind.WindDirection := int_of_float (math_Round (at3_2 (Ob report))) |} in
    log_if (config.Debug cfg) "RAPID_WIND %+v %+v" [Operand report; Operand rapidWind];;
    let m := set_Timestamp m (RapidWind.Timestamp rapidWind) in
    let m := set_Fields m (list_to_map [
      ("rapid_wind_speed", fmt_f2 (RapidWind.WindSpeed rapidWind));
      ("rapid_wind_direction", fmt_d (RapidWind.WindDirection rapidWind)) ]) in
    mret (m, None).

Definition parseRainStartEvent (cfg : Config) (report : Report) (m : Data)
  : run (Data * option error) :=
  if len (Evt report) <? 1 then
    mret (m, Some (fmt_Errorf_w "" ErrInsufficientData ": expected 1 field in evt"))
  else
    e0 ← index (Evt report) 0;
    let rainEvent := {| RainEvent.Timestamp := int64_of_float e0 |} in
    log_if (config.Debug cfg) "EVT_PRECIP %+v %+v" [Operand report; Operand rainEvent];;
    let m := set_Timestamp m (RainEvent.Timestamp rainEvent) in
    let m := set_Fields m (list_to_map [ ("rain_start_event", "1") ]) in
    mret (m, None).

Definition parseLightningStrike (cfg : Config) (report : Report) (m : Data)
  : run (Data * option error) :=
  if len (Evt report) <? 3 then
    mret (m, Some (fmt_Errorf_w "" ErrInsufficientData ": expected 3 fields in evt"))
  else
    e0 ← index (Evt report) 0; e1 ← index (Evt report) 1; e2 ← index (Evt report) 2;
    let lightning := {|
      LightningStrike.Timestamp := int64_of_float e0;
      LightningStrike.Distance := int_of_float (math_Round e1);
      LightningStrike.Energy := int_of_float (math_Round e2) |} in
    log_if (config.Debug cfg) "EVT_STRIKE %+v %+v" [Operand report; Operand lightning];;
    let m := set_Timestamp m (LightningStrike.Timestamp lightning) in
    let m := set_Fields m (list_to_map [
      ("lightning_distance", fmt_d (LightningStrike.Distance lightning));
      ("lightning_energy", fmt_d (LightningStrike.Energy lightning)) ]) in
    mret (m, None).

Definition parseAirObservation (cfg : Config) (report : Report) (m : Data)
  : run (Data * option error) :=
  if len (at1_0 (Obs report)) <? 8 then
    mret (m, Some (fmt_Errorf_w "" ErrInsufficientData
      (": expected 8 fields, got " +:+ fmt_d (len (at1_0 (Obs report))))))
  else
    let data := at1_0 (Obs report) in
    d0 ← index data 0; d1 ← index data 1; d2 ← index data 2;
    d3 ← index data 3; d4 ← index data 4; d5 ← index data 5;
    d6 ← index data 6; d7 ← index data 7;
    let airObs := {|
      AirObs.Timestamp := int64_of_float d0;
      AirObs.StationPressure := d1;
      AirObs.AirTemperature := d2;
      AirObs.RelativeHumidity := d3;
      AirObs.StrikeCount := int_of_float (math_Round d4);
      AirObs.StrikeAvgDistance := int_of_float (math_Round d5);
      AirObs.Battery := d6;
      AirObs.ReportInterval := int_of_float (math_Round d7) |} in
    log_if (config.Debug cfg) "OBS_AIR %+v %+v" [Operand report; Operand airObs];;
    let '(dp, err) :=
      dewpoint_Calculate (AirObs.AirTemperature airObs) (AirObs.RelativeHumidity airObs) in
    log_err err "dewpoint.Calculate(%f, %f): %v"
      (fun e => [Operand (AirObs.AirTemperature airObs);
                 Operand (AirObs.RelativeHumidity airObs); Operand e]);;
    let m := set_Timestamp m (AirObs.Timestamp airObs) in
    let m := set_Fields m (list_to_map [
      ("air_temperature", fmt_f2 (AirObs.AirTemperature airObs));
      ("battery", fmt_f2 (AirObs.Battery airObs));
      ("dew_point", fmt_f2 dp);
      ("humidity", fmt_f2 (AirObs.RelativeHumidity airObs));
      ("pressure", fmt_f2 (AirObs.StationPressure airObs));
      ("strike_count", fmt_d (AirObs.StrikeCount airObs));
      ("strike_distance", fmt_d (AirObs.StrikeAvgDistance airObs)) ]) in
    mret (m, None).

Definition parseSkyObservation (cfg : Config) (report : Report) (m : Data)
  : run (Data * option error) :=
  if len (at1_0 (Obs report)) <? 14 then
    mret (m, Some (fmt_Errorf_w "" ErrInsufficientData
      (": expected 14 fields, got " +:+ fmt_d (len (at1_0 (Obs report))))))
  else
    let data := at1_0 (Obs report) in
    d0 ← index data 0; d1 ← index data 1; d2 ← index data 2;
    d3 ← index data 3; d4 ← index data 4; d5 ← index data 5;
    d6 ← index data 6; d7 ← index data 7; d8 ← index data 8;
    d9 ← index data 9; d10 ← index data 10; d11 ← index data 11;
    d12 ← index data 12; d13 ← index data 13;
    let skyObs := {|
      SkyObs.Timestamp := int64_of_float d0;
      SkyObs.Illuminance := int_of_float (math_Round d1);
      SkyObs.UV := int_of_float (math_Round d2);
      SkyObs.RainAccumulation := d3;
      SkyObs.WindLull := d4;
      SkyObs.WindAvg := d5;
      SkyObs.WindGust := d6;
      SkyObs.WindDirection := int_of_float (math_Round d7);
      SkyObs.Battery := d8;
      SkyObs.ReportInterval := int_of_float (math_Round d9);
      SkyObs.SolarRadiation := int_of_float (math_Round d10);
      SkyObs.LocalDayRainAccumulation := d11;
      SkyObs.PrecipitationType := int_of_float (math_Round d12);
      SkyObs.WindSampleInterval := int_of_float (math_Round d13) |} in
    log_if (config.Debug cfg) "OBS_SKY %+v %+v" [Operand report; Operand skyObs];;
    let m := set_Timestamp m (SkyObs.Timestamp skyObs) in
    let m := set_Fields m (list_to_map [
      ("battery", fmt_f2 (SkyObs.Battery skyObs));
      ("illuminance", fmt_d (SkyObs.Illuminance skyObs));
      ("precipitation", fmt_f2 (SkyObs.RainAccumulation skyObs));
      ("precipitation_type", fmt_d (SkyObs.PrecipitationType skyObs));
      ("solar_radiation", fmt_d (SkyObs.SolarRadiation skyObs));
      ("uv", fmt_d (SkyObs.UV skyObs));
      ("wind_avg", fmt_f2 (SkyObs.WindAvg skyObs));
      ("wind_direction", fmt_d (SkyObs.WindDirection skyObs));
      ("wind_gust", fmt_f2 (SkyObs.WindGust skyObs));
      ("wind_lull", fmt_f2 (SkyObs.WindLull skyObs)) ]) in
    let m :=
      if negb (math_IsNaN (SkyObs.LocalDayRainAccumulation skyObs)) then
        set_Fields m (<["daily_rain" := fmt_f2 (SkyObs.LocalDayRainAccumulation skyObs)]> (Fields m))
      else m in
    mret (m, None).

Definition parseDeviceStatus (cfg : Config) (report : Report) (m : Data)
  : run (Data * option error) :=
  log_if (config.Debug cfg) "DEVICE_STATUS %+v" [Operand report];;
  let m := set_Timestamp m (Timestamp report) in
  let m := set_Fields m (list_to_map [
    ("device_uptime", fmt_d (Uptime report));
    ("device_voltage", fmt_f2 (Voltage report));
    ("device_rssi", fmt_f2 (RSSI report));
    ("device_hub_rssi", fmt_f2 (HubRSSI report));
    ("sensor_status", fmt_d (SensorStatus report));
    ("firmware_revision", fmt_d (FirmwareRevision report)) ]) in
  mret (m, None).

Definition parseHubStatus (cfg : Config) (report : Report) (m : Data)
  : run (Data * option error) :=
  log_if (config.Debug cfg) "HUB_STATUS %+v" [Operand report];;
  let m := set_Timestamp m (Timestamp report) in
  let m := set_Fields m (list_to_map [
    ("hub_uptime", fmt_d (Uptime report));
    ("hub_rssi", fmt_f2 (RSSI report));
    ("firmware_revision", fmt_d (FirmwareRevision report));
    ("sequence", fmt_d (Seq report)) ]) in
  let m :=
    if negb (String.eqb (ResetFlags report) "") then
      set_Fields m (<["reset_flags" := ResetFlags report]> (Fields m))
    else m in
  mret (m, None).

(** [m.Tags[k] = v]. *)
Definition set_Tag (m : Data) (k v : string) : Data := set_Tags m (<[k := v]> (Tags m)).

Definition Parse (cfg : Config) (addr : UDPAddr) (b : list Byte.byte) (n : Z)
  : run (option Data * option error) :=
  bn ← slice_to b n;
  match json_Decode bn with
  | inr err =>
      mret (None, Some (errorString
        ("ERROR Could not Unmarshal " +:+ fmt_d n +:+ " bytes from " +:+ UDPAddr_String addr
           +:+ ": " +:+ Error err +:+ ": " +:+ string_of_list_byte bn)))
  | inl report =>
      let m := New in
      let m := set_Bucket m (Influx_Bucket cfg) in
      if String.eqb (ReportType report) "obs_st" then
        let m := set_Name m "weather" in
        '(m, err) ← parseObservation cfg report m;
        match err with
        | Some e => mret (None, Some (fmt_Errorf_w "parsing observation: " e ""))
        | None =>
            let m := set_Tag m "station" (StationSerial report) in
            mret (Some m, None)
        end
      else if String.eqb (ReportType report) "rapid_wind" then
        if negb (Rapid_Wind cfg) then mret (None, None)
        else
          let m := set_Name m "weather" in
          '(m, err) ← parseRapidWind cfg report m;
          match err with
          | Some e => mret (None, Some (fmt_Errorf_w "parsing rapid wind: " e ""))
          | None =>
              let m := set_Tag m "station" (StationSerial report) in
              let m :=
                if negb (String.eqb (Influx_Bucket_Rapid_Wind cfg) "")
                then set_Bucket m (Influx_Bucket_Rapid_Wind cfg) else m in
              mret (Some m, None)
          end
      else if String.eqb (ReportType report) "evt_precip" then
        let m := set_Name m "weather_events" in
        '(m, err) ← parseRainStartEvent cfg report m;
        match err with
        | Some e => mret (None, Some (fmt_Errorf_w "parsing rain start event: " e ""))
        | None =>
            let m := set_Tag m "station" (StationSerial report) in
            let m := set_Tag m "event_type" "rain_start" in
            mret (Some m, None)
        end
      else if String.eqb (ReportType report) "evt_strike" then
        let m := set_Name m "weather_events" in
        '(m, err) ← parseLightningStrike cfg report m;
        match err with
        | Some e => mret (None, Some (fmt_Errorf_w "parsing lightning strike: " e ""))
        | None =>
            let m := set_Tag m "station" (StationSerial report) in
            let m := set_Tag m "event_type" "lightning_strike" in
            mret (Some m, None)
        end
      else if String.eqb (ReportType report) "obs_air" then
        let m := set_Name m "weather" in
        '(m, err) ← parseAirObservation cfg report m;
        match err with
        | Some e => mret (None, Some (fmt_Errorf_w "parsing AIR observation: " e ""))
        | None =>
            let m := set_Tag m "station" (StationSerial report) in
            let m := set_Tag m "sensor_type" "air" in
            mret (Some m, None)
        end
      else if String.eqb (ReportType report) "obs_sky" then
        let m := set_Name m "weather" in
        '(m, err) ← parseSkyObservation cfg report m;
        match err with
        | Some e => mret (None, Some (fmt_Errorf_w "parsing Sky observation: " e ""))
        | None =>
            let m := set_Tag m "station" (StationSerial report) in
            let m := set_Tag m "sensor_type" "sky" in
            mret (Some m, None)
        end
      else if String.eqb (ReportType report) "device_status" then
        let m := set_Name m "device_status" in
        '(m, err) ← parseDeviceStatus cfg report m;
        match err with
        | Some e => mret (None, Some (fmt_Errorf_w "parsing device status: " e ""))
        | None =>
            let m := set_Tag m "device" (StationSerial report) in
            let m := set_Tag m "hub" (HubSerial report) in
            mret (Some m, None)
        end
      else if String.eqb (ReportType report) "hub_status" then
        let m := set_Name m "hub_status" in
        '(m, err) ← parseHubStatus cfg report m;
        match err with
        | Some e => mret (None, Some (fmt_Errorf_w "parsing hub status: " e ""))
        | None =>
            let m := set_Tag m "hub" (StationSerial report) in
            mret (Some m, None)
        end
      else mret (None, None)
  end.

(** The errors an extractor can return: the insufficient-data sentinel,
    wrapped once with the counts behind its message. *)
Definition insufficient_only (r : run (Data * option error)) : Prop :=
  forall m' e, r.1 = Return (m', Some e) ->
    exists counts, e = fmt_Errorf_w "" ErrInsufficientData counts.

(** What an extractor leaves of the record it was given: the measurement,
    the bucket and the tags as they were, and fields whose keys hold bytes
    above ['='] only. *)
Definition extracts (r : run (Data * option error)) (m : Data) : Prop :=
  forall m', r.1 = Return (m', None) ->
    Name m' = Name m /\ Bucket m' = Bucket m /\ Tags m' = Tags m
    /\ keys_above_equals (Fields m').

(** What the specification says of an [obs_st] record: exactly the fifteen
    keys, each quantity formatted from its place in the array, the dew point
    from the injected routine, the station tag, and the sample time.  The
    time is the array's first element under the conversion [int64(.)]. *)
Definition obs_st_record (report : Report) (m : Data) : Prop :=
  let data := at1_0 (Obs report) in
  dom (Fields m) = obs_st_keys
  ∧ formats data obs_st_floats obs_st_integers (Fields m)
  ∧ Fields m !! "dew_point"
    = Some (fmt_f2 (dewpoint_Calculate (data !!! 7%nat) (data !!! 8%nat)).1)
  ∧ Tags m !! "station" = Some (StationSerial report)
  ∧ influx.Timestamp m = int64_of_float (data !!! 0%nat).

(** The payload [b[:n]] is in range and decodes to [report]. *)
Definition decodes (b : list Byte.byte) (n : Z) (report : Report) : Prop :=
  0 <= n <= len b ∧ json_Decode (take (Z.to_nat n) b) = inl report.

End extractors.

(** The discriminators [Parse] has a case for. *)
Definition report_types : list string :=
  [ "obs_st"; "rapid_wind"; "evt_precip"; "evt_strike";
    "obs_air"; "obs_sky"; "device_status"; "hub_status" ].

(** The seven fields of an [obs_air] record, and the places its
    float-valued and integer-valued quantities are read from. *)
Definition obs_air_keys : gset string :=
  list_to_set [ "air_temperature"; "battery"; "dew_point"; "humidity"; "pressure";
    "strike_count"; "strike_distance" ].

Definition obs_air_floats : list (string * nat) :=
  [ ("air_temperature", 2); ("battery", 6); ("humidity", 3); ("pressure", 1) ]%nat.

Definition obs_air_integers : list (string * nat) :=
  [ ("strike_count", 4); ("strike_distance", 5) ]%nat.

(** The places the ten fields of an [obs_sky] record are read from. *)
Definition obs_sky_floats : list (string * nat) :=
  [ ("battery", 8); ("precipitation", 3); ("wind_avg", 5); ("wind_gust", 6);
    ("wind_lull", 4) ]%nat.

Definition obs_sky_integers : list (string * nat) :=
  [ ("illuminance", 1); ("precipitation_type", 12); ("solar_radiation", 10);
    ("uv", 2); ("wind_direction", 7) ]%nat.

(** The places of an [obs_st] array that reach the record. *)
Definition obs_st_places : list nat :=
  [0; 1; 2; 3; 4; 6; 7; 8; 9; 10; 11; 12; 13; 14; 15; 16]%nat.

(** The four fields every [hub_status] record has. *)
Definition hub_status_keys : gset string :=
  list_to_set [ "hub_uptime"; "hub_rssi"; "firmware_revision"; "sequence" ].

(** An extractor that succeeds leaves the record with a field. *)
Definition fills (r : run (Data * option error)) : Prop :=
  forall m', r.1 = Return (m', None) -> Fields m' <> ∅.

(** *** The table of the switch *)

(** The measurement a discriminator is filed under. *)
Definition measurement_of (type : string) : string :=
  if String.eqb type "evt_precip" || String.eqb type "evt_strike" then "weather_events"
  else if String.eqb type "device_status" || String.eqb type "hub_status" then type
  else "weather".

(** The tags of a report's record. *)
Definition tags_of (report : Report) : gmap string string :=
  let type := ReportType report in
  let station : gmap string string := <["station" := StationSerial report]> ∅ in
  if String.eqb type "device_status" then
    <["hub" := HubSerial report]> (<["device" := StationSerial report]> ∅)
  else if String.eqb type "hub_status" then <["hub" := StationSerial report]> ∅
  else if String.eqb type "evt_precip" then <["event_type" := "rain_start"]> station
  else if String.eqb type "evt_strike" then <["event_type" := "lightning_strike"]> station
  else if String.eqb type "obs_air" then <["sensor_type" := "air"]> station
  else if String.eqb type "obs_sky" then <["sensor_type" := "sky"]> station
  else station.

(** The bucket: the rapid-wind bucket for rapid wind when one is configured,
    the default bucket otherwise. *)
Definition bucket_of (cfg : Config) (type : string) : string :=
  if String.eqb type "rapid_wind" && negb (String.eqb (Influx_Bucket_Rapid_Wind cfg) "")
  then Influx_Bucket_Rapid_Wind cfg
  else Influx_Bucket cfg.

(** The positional array a discriminator's extractor reads, and the least
    length it accepts; the status reports read none. *)
Definition positional (report : Report) : list float :=
  let type := ReportType report in
  if String.eqb type "evt_precip" || String.eqb type "evt_strike" then Evt report
  else if String.eqb type "rapid_wind" then
    [at3_0 (Ob report); at3_1 (Ob report); at3_2 (Ob report)]
  else if String.eqb type "device_status" || String.eqb type "hub_status" then []
  else at1_0 (Obs report).

Definition minimum_length (type : string) : Z :=
  if String.eqb type "obs_st" then 18
  else if String.eqb type "obs_sky" then 14
  else if String.eqb type "obs_air" then 8
  else if String.eqb type "rapid_wind" then 3
  else if String.eqb type "evt_strike" then 3
  else if String.eqb type "evt_precip" then 1
  else 0.

(** *** Fixtures, after the package's tests *)

(** Stand-ins for the imports: the decoder answers [decoded] whatever the
    payload, the dew-point routine answers [dew_point]. *)
Definition stub_imports (decoded : Report + error) (dew_point : float * option error)
  : Imports := {|
  UDPAddr := string;
  UDPAddr_String := fun a => a;
  json_Decode := fun _ => decoded;
  dewpoint_Calculate := fun _ _ => dew_point |}.

Definition typed_report (type serial : string) (obs : list float) : Report := {|
  StationSerial := serial; ReportType := type; HubSerial := "";
  Obs := Array1 obs; Ob := Array3 0%float 0%float 0%float; Evt := [];
  FirmwareRevision := 0; Uptime := 0; Timestamp := 0; ResetFlags := ""; Seq := 0;
  Fs := []; Radio_Stats := []; Mqtt_Stats := [];
  Voltage := 0%float; RSSI := 0%float; HubRSSI := 0%float;
  SensorStatus := 0; Debug := 0 |}.

(** The observation of [TestParseObservationSuccess], with the values that
    are not binary fractions replaced by neighbours that are. *)
Definition obs_st_sample : list float :=
  [ 1640995200; 1.5; 2.25; 3.75; 180; 3; 1013.25; 25.5; 65; 50000;
    5.25; 800; 0.5; 0; 5; 2; 3.75; 1 ]%float.

Definition test_config : Config := {|
  Config_Dir := ""; Listen_Address := ":50222"; Influx_URL := ""; Influx_Token := "";
  Influx_Bucket := "test-bucket"; Influx_Bucket_Rapid_Wind := "";
  Buffer := 10240; Verbose := false; config.Debug := false; Noop := false;
  Rapid_Wind := false |}.

(** [TestParseValidRapidWindReport]: rapid wind on, with a bucket of its own. *)
Definition rapid_wind_config : Config := {|
  Config_Dir := ""; Listen_Address := ":50222"; Influx_URL := ""; Influx_Token := "";
  Influx_Bucket := "test-bucket"; Influx_Bucket_Rapid_Wind := "rapid-wind-bucket";
  Buffer := 10240; Verbose := false; config.Debug := false; Noop := false;
  Rapid_Wind := true |}.

(** A payload for the stand-in decoder, the two bytes of [{}], and the
    sender's address. *)
Definition payload : list Byte.byte := [Byte.x7b; Byte.x7d].
Definition sender : string := "192.168.1.100:50222".

Definition obs_st_report : Report := typed_report "obs_st" "ST-123456" obs_st_sample.

(** [TestParseObservationInsufficientData]: three elements where 18 are needed. *)
Definition short_report : Report :=
  typed_report "obs_st" "ST-123456" [1640995200; 1.5; 2.25]%float.

Definition obs_air_report : Report :=
  typed_report "obs_air" "AR-000001" [1640995200; 1013.25; 25.5; 65; 0; 0; 3.5; 1]%float.

(** An [obs_sky] array without a daily accumulation. *)
Definition obs_sky_report : Report :=
  typed_report "obs_sky" "SK-000001"
    [1640995200; 9000; 10; 0; 2.5; 4.5; 7.5; 187; 3.25; 1; 130; nan; 0; 3]%float.

Definition rapid_wind_report : Report := {|
  StationSerial := "ST-123456"; ReportType := "rapid_wind"; HubSerial := "";
  Obs := Array1 []; Ob := Array3 1640995200%float 5.5%float 270%float; Evt := [];
  FirmwareRevision := 0; Uptime := 0; Timestamp := 0; ResetFlags := ""; Seq := 0;
  Fs := []; Radio_Stats := []; Mqtt_Stats := [];
  Voltage := 0%float; RSSI := 0%float; HubRSSI := 0%float;
  SensorStatus := 0; Debug := 0 |}.

Definition unknown_report : Report := typed_report "unknown_type" "" [].

(** The line of a record [Parse] returned, with the record's bucket. *)
Definition encoded (r : run (option Data * option error)) : option (string * string) :=
  match r.1 with
  | Return (Some m, None) => Some (Marshal m, Bucket m)
  | _ => None
  end.

(** The dew-point routine answering a value, and answering its error beside
    a zero. *)
Definition dew_ok : float * option error := (18.5%float, None).
Definition dew_failed : float * option error := (0%float, Some ErrDewPointCalculation).

(** A report of a type with the event numbers [evt] and the scalar members
    of a status message. *)
Definition event_report (type : string) (evt : list float) : Report := {|
  StationSerial := "ST-123456"; ReportType := type; HubSerial := "HB-000001";
  Obs := Array1 []; Ob := Array3 0%float 0%float 0%float; Evt := evt;
  FirmwareRevision := 171; Uptime := 86400; Timestamp := 1640995200;
  ResetFlags := "BOR,PIN,POR"; Seq := 48; Fs := []; Radio_Stats := []; Mqtt_Stats := [];
  Voltage := 2.5%float; RSSI := (-62)%float; HubRSSI := (-55.5)%float;
  SensorStatus := 0; Debug := 0 |}.

Definition evt_precip_report : Report := event_report "evt_precip" [1640995200%float].
Definition evt_strike_report : Report :=
  event_report "evt_strike" [1640995200; 27; 3848]%float.
Definition device_status_report : Report := event_report "device_status" [].
Definition hub_status_report : Report := event_report "hub_status" [].

(** [obs_st_sample] with other intervals at places 5 and 17 and a number
    more at the end. *)
Definition obs_st_report' : Report :=
  typed_report "obs_st" "ST-123456"
    [ 1640995200; 1.5; 2.25; 3.75; 180; 6; 1013.25; 25.5; 65; 50000;
      5.25; 800; 0.5; 0; 5; 2; 3.75; 5; 42 ]%float.

(** [test_config] for another listener, with debugging on. *)
Definition debug_config : Config := {|
  Config_Dir := "/config"; Listen_Address := ":50223"; Influx_URL := "http://localhost:8086";
  Influx_Token := "token"; Influx_Bucket := "test-bucket"; Influx_Bucket_Rapid_Wind := "";
  Buffer := 1024; Verbose := true; config.Debug := true; Noop := true;
  Rapid_Wind := false |}.

(** What the decoder says of a payload that ends early. *)
Definition decode_error : error := errorString "unexpected end of JSON input".

End tempest.

(** ** Facts about the runtime pieces *)

Module Go_facts.

Lemma round_half_even_nonneg (num e : Z) : 0 <= num -> 0 <= round_half_even num e.
Proof.
  intros Hnum. unfold round_half_even. destruct (0 <=? e) eqn:He.
  - apply Z.leb_le in He. apply Z.mul_nonneg_nonneg; [done|]. by apply Z.pow_nonneg.
  - apply Z.leb_gt in He.
    assert (0 <= num / 2 ^ (- e)) by (apply Z.div_pos; [done|]; apply Z.pow_pos_nonneg; lia).
    destruct (_ || _); lia.
Qed.

Lemma digit_is_digit (n : Z) : 0 <= n <= 9 -> is_digit (digit n) = true.
Proof.
  intros [H0 H9]. unfold digit.
  assert (exists k, Z.to_nat n = k /\ (k <= 9)%nat) as (k & -> & Hk) by (eexists; split; [done|lia]).
  clear H0 H9. do 10 (destruct k as [|k]; [done|]). lia.
Qed.

(** [%.2f] on a number: an optional sign, the whole part in decimal, a
    point and two digits. *)
Lemma fmt_f2_two_decimals (x : float) :
  float_finite x = true ->
  exists (neg : bool) (whole : Z) (d1 d2 : ascii),
    0 <= whole /\ is_digit d1 = true /\ is_digit d2 = true
    /\ fmt_f2 x = sign_prefix neg +:+ fmt_d whole +:+ "." +:+ String d1 (String d2 "").
Proof.
  unfold float_finite, fmt_f2. destruct (Prim2SF x) as [s|s| |s m e]; try done; intros _.
  - exists s, 0, "0"%char, "0"%char. by repeat split.
  - pose proof (round_half_even_nonneg (Z.pos m * 100) e ltac:(lia)) as Hh.
    cbv zeta. generalize dependent (round_half_even (Z.pos m * 100) e). intros h Hh.
    exists s, (h / 100), (digit (h mod 100 / 10)), (digit (h mod 10)).
    pose proof (Z.mod_pos_bound h 100 ltac:(lia)) as H100.
    pose proof (Z.mod_pos_bound h 10 ltac:(lia)) as H10.
    split; [apply Z.div_pos; lia|].
    split; [apply digit_is_digit|split; [apply digit_is_digit; lia|done]].
    assert (h mod 100 / 10 < 10) by (apply Z.div_lt_upper_bound; lia).
    split; [apply Z.div_pos; lia | lia].
Qed.

Example fmt_f2_temp : fmt_f2 25.5 = "25.50".
Proof. by vm_compute. Qed.

Example fmt_f2_ties_to_even : fmt_f2 0.125 = "0.12" /\ fmt_f2 0.375 = "0.38".
Proof. by vm_compute. Qed.

Example fmt_f2_not_numbers :
  fmt_f2 nan = "NaN" /\ fmt_f2 infinity = "+Inf" /\ fmt_f2 neg_infinity = "-Inf".
Proof. by vm_compute. Qed.

Example math_Round_half_away :
  math_Round 2.5 = 3%float /\ math_Round (-2.5) = (-3)%float
  /\ int_of_float (math_Round 179.5) = 180.
Proof. by vm_compute. Qed.

Example int64_of_float_seconds :
  int64_of_float 1640995200 = 1640995200 /\ int64_of_float 1640995200.75 = 1640995200.
Proof. by vm_compute. Qed.

(** [sort.Strings] returns the one ascending arrangement of its input, so
    the order of the input does not show in the result. *)
Lemma sort_Strings_sorted (l : list string) : Sorted String.le (sort_Strings l).
Proof. apply (Sorted_merge_sort String.le). Qed.

Lemma sort_Strings_perm (l : list string) : sort_Strings l ≡ₚ l.
Proof. apply (merge_sort_Permutation String.le). Qed.

Lemma sort_Strings_unique (l l' : list string) :
  Sorted String.le l' -> l' ≡ₚ l -> sort_Strings l = l'.
Proof.
  intros Hs Hp. apply (Sorted_unique String.le); [apply sort_Strings_sorted|done|].
  by rewrite sort_Strings_perm.
Qed.

Lemma sort_Strings_order (l1 l2 : list string) :
  l1 ≡ₚ l2 -> sort_Strings l1 = sort_Strings l2.
Proof.
  intros Hp. apply sort_Strings_unique; [apply sort_Strings_sorted|].
  by rewrite sort_Strings_perm.
Qed.

(** [strings.Contains]: a text found in a part is found in the whole. *)
Lemma append_String (c : ascii) (s t : string) : String c s +:+ t = String c (s +:+ t).
Proof. reflexivity. Qed.

Lemma prefix_append (sub s t : string) :
  String.prefix sub s = true -> String.prefix sub (s +:+ t) = true.
Proof.
  revert s. induction sub as [|a sub IH]; intros s.
  - intros _. by destruct (s +:+ t).
  - destruct s as [|b s]; [done|].
    rewrite append_String. simpl. destruct (ascii_dec a b); [apply IH|done].
Qed.

Lemma prefix_itself (s : string) : String.prefix s s = true.
Proof. induction s as [|a s IH]; [done|]. simpl. by destruct (ascii_dec a a). Qed.

Lemma strings_Contains_append_l (s t sub : string) :
  strings_Contains s sub = true -> strings_Contains (s +:+ t) sub = true.
Proof.
  induction s as [|c s IH].
  - destruct sub; [|done]. by destruct t.
  - rewrite append_String. cbn [strings_Contains].
    intros [Hp|Ht]%orb_prop; apply orb_true_intro.
    + left. rewrite <- append_String. by apply prefix_append.
    + right. by apply IH.
Qed.

Lemma strings_Contains_append_r (s t sub : string) :
  strings_Contains t sub = true -> strings_Contains (s +:+ t) sub = true.
Proof.
  intros Ht. induction s as [|c s IH]; [done|].
  rewrite append_String. cbn [strings_Contains]. rewrite IH. apply orb_true_r.
Qed.

Lemma strings_Contains_itself (s : string) : strings_Contains s s = true.
Proof. destruct s; [done|]. cbn [strings_Contains]. by rewrite prefix_itself. Qed.

Lemma strings_Contains_Join (elems : list string) (sep x : string) :
  x ∈ elems -> strings_Contains (strings_Join elems sep) x = true.
Proof.
  unfold strings_Join. induction elems as [|y [|z elems] IH].
  - by intros ?%elem_of_nil.
  - intros ->%list_elem_of_singleton. apply strings_Contains_itself.
  - intros [-> | Hin]%elem_of_cons.
    + apply strings_Contains_append_l, strings_Contains_itself.
    + change (strings_Contains (y +:+ sep +:+ String.concat sep (z :: elems)) x = true).
      by apply strings_Contains_append_r, strings_Contains_append_r, IH.
Qed.

End Go_facts.

(** ** The configuration *)

Module config_facts.
Import config.

Lemma elem_of_if_append {A} (c : bool) (l : list A) (m x : A) :
  x ∈ (if c then l ++ [m] else l)%list <-> x ∈ l \/ (c = true /\ x = m).
Proof.
  destruct c; [rewrite elem_of_app, list_elem_of_singleton|]; split.
  - intros [Hin | ->]; [by left | by right].
  - intros [Hin | [_ ->]]; [by left | by right].
  - by left.
  - by intros [Hin|[? _]].
Qed.

(** The tests of [Validate], one after the other. *)
Ltac each_check url_Parse c :=
  unfold Validate;
  destruct (String.eqb_spec (Influx_URL c) ""), (String.eqb_spec (Influx_Token c) ""),
    (String.eqb_spec (Influx_Bucket c) ""), (String.eqb_spec (Listen_Address c) "");
  cbn [negb];
  try destruct (url_Parse (Influx_URL c));
  try destruct (strings_Contains (Listen_Address c) ":");
  destruct (Z.leb_spec (Buffer c) 0);
  cbn [negb app]; unfold len; cbn [length Z.of_nat Z.ltb Z.compare].

(** X18: [Validate] accepts a configuration exactly when the server URL
    is not empty and parses, the token and the bucket are not empty, the
    listen address is empty or holds a colon, and the buffer size is
    positive.  An empty listen address passes. *)
Theorem Validate_accepts_iff (url_Parse : string -> option error) (c : Config) :
  Validate url_Parse c = None
  <-> Influx_URL c <> "" /\ url_Parse (Influx_URL c) = None
      /\ Influx_Token c <> "" /\ Influx_Bucket c <> ""
      /\ (Listen_Address c = "" \/ strings_Contains (Listen_Address c) ":" = true)
      /\ 0 < Buffer c.
Proof.
  each_check url_Parse c.
  all: split; [try done; intros _ | intros (? & ? & ? & ? & [?|?] & ?); try done; lia].
  all: repeat split; auto.
Qed.

(** X19: when [Validate] rejects a configuration, its one error lists
    every failed check, not the first only: the text is the heading and the
    complaints joined by [; ], and a complaint is in the list exactly when
    its check fails.  The URL is parsed only when it is not empty. *)
Theorem Validate_rejects (url_Parse : string -> option error) (c : Config) (e : error) :
  Validate url_Parse c = Some e ->
  exists msgs,
    e = errorString ("configuration validation failed: " +:+ strings_Join msgs "; ")
    /\ msgs <> []
    /\ forall msg, msg ∈ msgs <->
         (msg = "INFLUX_URL is required" /\ Influx_URL c = "")
         \/ (msg = "INFLUX_TOKEN is required" /\ Influx_Token c = "")
         \/ (msg = "INFLUX_BUCKET is required" /\ Influx_Bucket c = "")
         \/ (exists err, msg = "INFLUX_URL is not a valid URL: " +:+ Error err
                         /\ Influx_URL c <> "" /\ url_Parse (Influx_URL c) = Some err)
         \/ (msg = "LISTEN_ADDRESS must include port (e.g., ':50222')"
             /\ Listen_Address c <> ""
             /\ strings_Contains (Listen_Address c) ":" = false)
         \/ (msg = "Buffer size must be greater than 0" /\ Buffer c <= 0).
Proof.
  unfold Validate. cbv zeta.
  match goal with
  | |- (if 0 <? len ?l then _ else _) = _ -> _ => set (msgs := l)
  end.
  destruct (0 <? len msgs) eqn:Hlen; [|done]. intros [= <-].
  exists msgs. split; [done|]. split; [intros Hnil; by rewrite Hnil in Hlen|].
  clear Hlen. subst msgs. intros msg.
  destruct (String.eqb_spec (Influx_URL c) "") as [Hu|Hu],
    (String.eqb_spec (Listen_Address c) "") as [Hl|Hl]; cbn [negb].
  all: destruct (url_Parse (Influx_URL c)) eqn:Hurl.
  all: try match goal with
           | |- context [strings_Contains ?a ?p] => destruct (strings_Contains a p) eqn:Hport
           end.
  all: cbn [negb];
    repeat first [ rewrite elem_of_if_append | rewrite elem_of_app
                 | rewrite list_elem_of_singleton | rewrite elem_of_nil ];
    rewrite ?String.eqb_eq, ?Z.leb_le.
  all: split; intros H; [decompose [or and] H | decompose [or and ex] H];
    simplify_eq; try done; eauto 12.
Qed.

Lemma Validate_rejects_witness :
  exists msgs,
    Validate url_accepts tempest.test_config
    = Some (errorString
              ("configuration validation failed: " +:+ strings_Join msgs "; "))
    /\ "INFLUX_TOKEN is required" ∈ msgs.
Proof.
  destruct (Validate_rejects url_accepts tempest.test_config
              (errorString ("configuration validation failed: "
                            +:+ "INFLUX_URL is required; INFLUX_TOKEN is required"))
              eq_refl) as (msgs & He & _ & Hin).
  exists msgs. split; [by rewrite <- He|]. apply Hin. right. left. by split.
Defined.

End config_facts.

(** ** The line-protocol encoder *)

Module influx_facts.
Import influx Go_facts.

Lemma Marshal_in_order (m : Data) (tags_order fields_order : list (string * string)) :
  ranges (Tags m) tags_order -> ranges (Fields m) fields_order ->
  Marshal_in tags_order fields_order m = Marshal m.
Proof.
  unfold ranges, Marshal, Marshal_in. intros Ht Hf.
  by rewrite (sort_Strings_order _ _ (fmap_Permutation pair_string _ _ Ht)),
    (sort_Strings_order _ _ (fmap_Permutation pair_string _ _ Hf)).
Qed.

Lemma Marshals_Marshal (m : Data) : Marshals m (Marshal m).
Proof.
  exists (map_to_list (Tags m)), (map_to_list (Fields m)).
  by unfold ranges, Marshal.
Qed.

Lemma Marshals_unique (m : Data) (s : string) : Marshals m s -> s = Marshal m.
Proof. intros (lt & lf & Ht & Hf & ->). by apply Marshal_in_order. Qed.

#[global] Instance by_pair_string_total : Total by_pair_string.
Proof. intros a b. apply String.le_total. Qed.

(** The pairs can be arranged so that their texts are what [sort.Strings]
    leaves. *)
Lemma sorted_pairs (l : list (string * string)) :
  pair_string <$> merge_sort by_pair_string l = sort_Strings (pair_string <$> l).
Proof.
  symmetry. apply sort_Strings_unique.
  - apply (Sorted_fmap _ by_pair_string); [done|]. apply (Sorted_merge_sort by_pair_string).
  - apply fmap_Permutation, (merge_sort_Permutation by_pair_string).
Qed.

Lemma Marshal_line (m : Data) :
  Marshal m = line (Name m) (sorted_entries (Tags m)) (sorted_entries (Fields m)) (Timestamp m).
Proof. unfold Marshal, Marshal_in, line, sorted_entries. by rewrite !sorted_pairs. Qed.

Lemma sorted_entries_ranges (mp : gmap string string) : ranges mp (sorted_entries mp).
Proof. apply (merge_sort_Permutation by_pair_string). Qed.

Lemma sorted_entries_sorted (mp : gmap string string) :
  Sorted by_pair_string (sorted_entries mp).
Proof. apply (Sorted_merge_sort by_pair_string). Qed.

(** Where the bytes of the first key are all above ['='], the order of two
    pair texts is the order of their keys: the ['='] that ends the shorter
    key sorts below the byte that continues the longer one. *)
Lemma pair_string_le_key (k1 v1 k2 v2 : string) :
  key_above_equals k1 = true ->
  String.le (k1 +:+ "=" +:+ v1) (k2 +:+ "=" +:+ v2) -> String.le k1 k2.
Proof.
  unfold String.le, String.leb. revert k2.
  induction k1 as [|c k1 IH]; intros [|c2 k2]; simpl; try done.
  - intros [Hc _]%andb_prop.
    assert (Ascii.compare c "=" = Gt) as ->; [|done].
    unfold Ascii.compare. apply N.compare_gt_iff. by apply N.ltb_lt in Hc.
  - intros [_ Hk]%andb_prop. destruct (Ascii.compare c c2); try done. by apply IH.
Qed.

Lemma by_pair_string_by_key (kv1 kv2 : string * string) :
  key_above_equals kv1.1 = true -> by_pair_string kv1 kv2 -> by_key kv1 kv2.
Proof. destruct kv1, kv2. apply pair_string_le_key. Qed.

Lemma Sorted_by_key (l : list (string * string)) :
  Forall (fun kv => key_above_equals kv.1 = true) l ->
  Sorted by_pair_string l -> Sorted by_key l.
Proof.
  intros Hl Hs. induction Hs as [|kv l _ IH Hd]; [constructor|].
  inversion_clear Hl as [|? ? Hkv Hl']. constructor; [by apply IH|].
  destruct Hd; constructor. by apply by_pair_string_by_key.
Qed.

Lemma sorted_entries_by_key (mp : gmap string string) :
  keys_above_equals mp -> Sorted by_key (sorted_entries mp).
Proof.
  intros Hk. apply Sorted_by_key; [|apply sorted_entries_sorted].
  rewrite (sorted_entries_ranges mp).
  apply map_Forall_to_list in Hk. eapply Forall_impl; [exact Hk|].
  by intros [k v].
Qed.

Lemma Marshal_by_pair_string (m : Data) : encodes_sorted_by by_pair_string m (Marshal m).
Proof.
  exists (sorted_entries (Tags m)), (sorted_entries (Fields m)).
  repeat split; auto using sorted_entries_ranges, sorted_entries_sorted, Marshal_line.
Qed.

Lemma Marshal_by_key (m : Data) :
  keys_above_equals (Tags m) -> keys_above_equals (Fields m) ->
  encodes_sorted_by by_key m (Marshal m).
Proof.
  intros Ht Hf. exists (sorted_entries (Tags m)), (sorted_entries (Fields m)).
  repeat split; auto using sorted_entries_ranges, sorted_entries_by_key, Marshal_line.
Qed.

(** C2, as the code has it: every line [Marshal] returns for a record with
    tags and fields is the four-segment layout with the tag pairs and the
    field pairs ascending as whole [key=value] texts; they are ascending by
    key as well when no key holds a byte at or below ['=']. *)
Theorem Marshal_layout (m : Data) (s : string) :
  Tags m ≠ ∅ -> Fields m ≠ ∅ -> Marshals m s ->
  encodes_sorted_by by_pair_string m s
  ∧ (keys_above_equals (Tags m) -> keys_above_equals (Fields m) ->
     encodes_sorted_by by_key m s).
Proof.
  intros _ _ ->%Marshals_unique. split; [apply Marshal_by_pair_string|apply Marshal_by_key].
Qed.

Lemma Marshal_layout_witness :
  encodes_sorted_by by_pair_string weather_record (Marshal weather_record)
  ∧ encodes_sorted_by by_key weather_record (Marshal weather_record).
Proof.
  destruct (Marshal_layout weather_record (Marshal weather_record)) as [Hp Hk].
  - by apply insert_non_empty.
  - by apply insert_non_empty.
  - apply Marshals_Marshal.
  - split; [exact Hp|]. apply Hk; by repeat apply map_Forall_insert_2.
Defined.

(** The layout with the pairs ascending by key, as the specification words
    it, is not what every record gets: with the fields [temp] and [temp2]
    the line has [temp2=26.0] first, because ['2'] sorts below the ['=']
    that follows [temp]. *)
Lemma Marshal_not_sorted_by_key :
  Tags two_probes_record ≠ ∅ ∧ Fields two_probes_record ≠ ∅
  ∧ Marshals two_probes_record (Marshal two_probes_record)
  ∧ Marshal two_probes_record
    = "weather,station=ST-123 temp2=26.0,temp=25.5 1640995200" +:+ newline
  ∧ ¬ encodes_sorted_by by_key two_probes_record (Marshal two_probes_record).
Proof.
  split; [by apply insert_non_empty|]. split; [by apply insert_non_empty|].
  split; [apply Marshals_Marshal|]. split; [by vm_compute|].
  intros (tags & fields & Ht & Hf & _ & Hs & Heq).
  unfold ranges, two_probes_record in Ht, Hf; simpl in Ht, Hf.
  rewrite insert_empty, map_to_list_singleton in Ht.
  rewrite map_to_list_insert, insert_empty, map_to_list_singleton in Hf by done.
  symmetry in Ht. apply Permutation_length_1_inv in Ht as ->.
  symmetry in Hf. apply Permutation_length_2_inv in Hf as [-> | ->].
  - inversion_clear Hs as [|? ? _ Hd]. inversion_clear Hd as [|? ? Hle]. by vm_compute in Hle.
  - by vm_compute in Heq.
Qed.

(** C7: the record of the encoder's test, measurement [weather], tag
    [station=ST-123], fields [temp=25.5] and [humidity=60.0], timestamp
    1640995200, encodes to exactly
    [weather,station=ST-123 humidity=60.0,temp=25.5 1640995200\n], humidity
    before temp, whatever order the maps are visited in. *)
Theorem Marshal_weather_record (s : string) :
  Marshals weather_record s
  <-> s = "weather,station=ST-123 humidity=60.0,temp=25.5 1640995200" +:+ newline.
Proof.
  assert (Marshal weather_record
          = "weather,station=ST-123 humidity=60.0,temp=25.5 1640995200" +:+ newline)
    as <- by by vm_compute.
  split; [apply Marshals_unique | intros ->; apply Marshals_Marshal].
Qed.

(** C9: [Marshal] is deterministic: two records with the same measurement,
    bucket, tags, fields and timestamp encode to the same line, in every
    run and whatever order each run visits the two maps in. *)
Theorem Marshal_deterministic (m1 m2 : Data) (s1 s2 : string) :
  Name m1 = Name m2 -> Bucket m1 = Bucket m2 -> Tags m1 = Tags m2 ->
  Fields m1 = Fields m2 -> Timestamp m1 = Timestamp m2 ->
  Marshals m1 s1 -> Marshals m2 s2 -> s1 = s2.
Proof.
  intros Hn Hb Ht Hf Hts ->%Marshals_unique ->%Marshals_unique.
  unfold Marshal, Marshal_in. by rewrite Hn, Ht, Hf, Hts.
Qed.

Lemma Marshal_deterministic_witness :
  Marshal_in [("station", "ST-123")] [("temp", "25.5"); ("humidity", "60.0")] weather_record
  = Marshal_in [("station", "ST-123")] [("humidity", "60.0"); ("temp", "25.5")] weather_record.
Proof.
  apply (Marshal_deterministic weather_record weather_record); try reflexivity.
  - exists [("station", "ST-123")], [("temp", "25.5"); ("humidity", "60.0")].
    unfold ranges, weather_record; simpl.
    rewrite insert_empty, map_to_list_singleton.
    rewrite map_to_list_insert, insert_empty, map_to_list_singleton by done.
    repeat split; [done | apply perm_swap].
  - exists [("station", "ST-123")], [("humidity", "60.0"); ("temp", "25.5")].
    unfold ranges, weather_record; simpl.
    rewrite insert_empty, map_to_list_singleton.
    rewrite map_to_list_insert, insert_empty, map_to_list_singleton by done.
    done.
Defined.

(** X20: [Marshal] has no case for an empty map.  Without tags the
    measurement is followed by a comma and then the space, and without
    fields two spaces stand before the timestamp. *)
Theorem Marshal_empty_maps (m : Data) (s : string) :
  Marshals m s ->
  (Tags m = ∅ ->
   s = Name m +:+ ", " +:+ strings_Join (pair_string <$> sorted_entries (Fields m)) ","
         +:+ " " +:+ fmt_d (Timestamp m) +:+ newline)
  /\ (Fields m = ∅ ->
      s = Name m +:+ "," +:+ strings_Join (pair_string <$> sorted_entries (Tags m)) ","
            +:+ "  " +:+ fmt_d (Timestamp m) +:+ newline).
Proof.
  intros ->%Marshals_unique. rewrite Marshal_line. unfold line.
  split; intros Hempty.
  - unfold sorted_entries at 1. by rewrite Hempty, map_to_list_empty.
  - unfold sorted_entries at 2. by rewrite Hempty, map_to_list_empty.
Qed.

Lemma Marshal_empty_maps_witness :
  Marshal New = ",  0" +:+ newline.
Proof.
  destruct (Marshal_empty_maps New (Marshal New) (Marshals_Marshal New)) as [Ht _].
  rewrite (Ht eq_refl). by vm_compute.
Defined.

(** X21: [Marshal] writes every tag and every field as it is, the key,
    an equals sign and the value: nothing is escaped or quoted, so a comma, a
    space or an equals sign in a value reaches the line. *)
Theorem Marshal_verbatim (m : Data) (s : string) (k v : string) :
  Marshals m s -> Tags m !! k = Some v \/ Fields m !! k = Some v ->
  strings_Contains s (k +:+ "=" +:+ v) = true.
Proof.
  intros ->%Marshals_unique Hin. unfold Marshal, Marshal_in.
  apply strings_Contains_append_r, strings_Contains_append_r.
  destruct Hin as [Hin|Hin].
  - apply strings_Contains_append_l, strings_Contains_Join.
    rewrite sort_Strings_perm. apply list_elem_of_fmap. exists (k, v).
    split; [done|]. by apply elem_of_map_to_list.
  - apply strings_Contains_append_r, strings_Contains_append_r, strings_Contains_append_l,
      strings_Contains_Join.
    rewrite sort_Strings_perm. apply list_elem_of_fmap. exists (k, v).
    split; [done|]. by apply elem_of_map_to_list.
Qed.

Lemma Marshal_verbatim_witness :
  strings_Contains (Marshal weather_record) "temp=25.5" = true.
Proof.
  apply (Marshal_verbatim weather_record (Marshal weather_record) "temp" "25.5");
    [apply Marshals_Marshal | right; reflexivity].
Defined.

End influx_facts.

(** ** The report parser *)

Module tempest_facts.
Import config influx tempest.

Section parser.
Context {imports : Imports}.

Lemma run_bind_ret {A B} (a : A) (f : A -> run B) : mret a ≫= f = f a.
Proof. unfold mret, run_ret, mbind, run_bind. by destruct (f a). Qed.

Lemma index_bind {T B} (s : list T) (i : nat) (v : T) (f : T -> run B) :
  s !! i = Some v -> index s i ≫= f = f v.
Proof. unfold index. intros ->. apply run_bind_ret. Qed.

(** Evaluation of an extractor's body once the array is known to be long
    enough: the indexings succeed one after the other. *)
Ltac indexes := repeat (erewrite index_bind by reflexivity); cbv zeta.

Tactic Notation "split_array" ident(data) integer(k) :=
  do k (destruct data as [|? data]; [done|]).

Lemma parseObservation_ok (cfg : Config) (report : Report) (m : Data) :
  let data := at1_0 (Obs report) in
  18 <= len data ->
  let dew := dewpoint_Calculate (data !!! 7%nat) (data !!! 8%nat) in
  exists m' logs,
    parseObservation cfg report m = (Return (m', None), logs)
    /\ influx.Timestamp m' = int64_of_float (data !!! 0%nat)
    /\ Name m' = Name m /\ Bucket m' = Bucket m /\ Tags m' = Tags m
    /\ dom (Fields m') = obs_st_keys
    /\ formats data obs_st_floats obs_st_integers (Fields m')
    /\ Fields m' !! "dew_point" = Some (fmt_f2 dew.1)
    /\ (forall e, dew.2 = Some e ->
         Printf "dewpoint.Calculate(%f, %f): %v"
           [Operand (data !!! 7%nat); Operand (data !!! 8%nat); Operand e] ∈ logs).
Proof.
  unfold parseObservation. generalize (at1_0 (Obs report)). intros data Hlen.
  destruct (len _ <? 18) eqn:Hlt; [apply Z.ltb_lt in Hlt; lia|]. clear Hlt.
  split_array data 18. indexes. clear Hlen.
  cbn [Obs.Timestamp Obs.WindLull Obs.WindAvg Obs.WindGust Obs.WindDirection
       Obs.StationPressure Obs.AirTemperature Obs.RelativeHumidity Obs.Illuminance
       Obs.UV Obs.SolarRadiation Obs.PrecipitationAccumulation Obs.PrecipitationType
       Obs.StrikeAvgDistance Obs.StrikeCount Obs.Battery
       lookup_total list_lookup_total].
  destruct (dewpoint_Calculate _ _) as [dp err].
  destruct (config.Debug cfg), err; (eexists _, _; split; [reflexivity|]);
    cbn [influx.Timestamp Name Bucket Tags Fields set_Fields set_Timestamp fst snd].
  all: repeat split; try done.
  all: try (unfold obs_st_floats, obs_st_integers; repeat constructor; done).
  all: intros ? [= <-]; cbn [app]; repeat constructor.
Qed.

Lemma parseObservation_short (cfg : Config) (report : Report) (m : Data) :
  len (at1_0 (Obs report)) < 18 ->
  parseObservation cfg report m
  = (Return (m, Some (fmt_Errorf_w "" ErrInsufficientData
       (": expected 18 fields, got " +:+ fmt_d (len (at1_0 (Obs report)))))), []).
Proof. intros Hlt%Z.ltb_lt. unfold parseObservation. by rewrite Hlt. Qed.

Lemma parseAirObservation_ok (cfg : Config) (report : Report) (m : Data) :
  let data := at1_0 (Obs report) in
  8 <= len data ->
  let dew := dewpoint_Calculate (data !!! 2%nat) (data !!! 3%nat) in
  exists m' logs,
    parseAirObservation cfg report m = (Return (m', None), logs)
    /\ Name m' = Name m /\ Bucket m' = Bucket m /\ Tags m' = Tags m
    /\ Fields m' !! "dew_point" = Some (fmt_f2 dew.1)
    /\ (forall e, dew.2 = Some e ->
         Printf "dewpoint.Calculate(%f, %f): %v"
           [Operand (data !!! 2%nat); Operand (data !!! 3%nat); Operand e] ∈ logs).
Proof.
  unfold parseAirObservation. generalize (at1_0 (Obs report)). intros data Hlen.
  destruct (len _ <? 8) eqn:Hlt; [apply Z.ltb_lt in Hlt; lia|]. clear Hlt.
  split_array data 8. indexes. clear Hlen.
  cbn [AirObs.Timestamp AirObs.StationPressure AirObs.AirTemperature
       AirObs.RelativeHumidity AirObs.StrikeCount AirObs.StrikeAvgDistance
       AirObs.Battery lookup_total list_lookup_total].
  destruct (dewpoint_Calculate _ _) as [dp err].
  destruct (config.Debug cfg), err; (eexists _, _; split; [reflexivity|]);
    cbn [influx.Timestamp Name Bucket Tags Fields set_Fields set_Timestamp fst snd].
  all: repeat split; try done.
  all: intros ? [= <-]; cbn [app]; repeat constructor.
Qed.

Lemma parseAirObservation_short (cfg : Config) (report : Report) (m : Data) :
  len (at1_0 (Obs report)) < 8 ->
  parseAirObservation cfg report m
  = (Return (m, Some (fmt_Errorf_w "" ErrInsufficientData
       (": expected 8 fields, got " +:+ fmt_d (len (at1_0 (Obs report)))))), []).
Proof. intros Hlt%Z.ltb_lt. unfold parseAirObservation. by rewrite Hlt. Qed.

Lemma parseSkyObservation_ok (cfg : Config) (report : Report) (m : Data) :
  let data := at1_0 (Obs report) in
  14 <= len data ->
  exists m' logs,
    parseSkyObservation cfg report m = (Return (m', None), logs)
    /\ obs_sky_keys ⊆ dom (Fields m')
    /\ dom (Fields m') ⊆ obs_sky_keys ∪ {["daily_rain"]}
    /\ ("daily_rain" ∈ dom (Fields m') <-> math_IsNaN (data !!! 11%nat) = false)
    /\ (math_IsNaN (data !!! 11%nat) = false ->
        Fields m' !! "daily_rain" = Some (fmt_f2 (data !!! 11%nat))).
Proof.
  unfold parseSkyObservation. generalize (at1_0 (Obs report)). intros data Hlen.
  destruct (len _ <? 14) eqn:Hlt; [apply Z.ltb_lt in Hlt; lia|]. clear Hlt.
  split_array data 14. indexes. clear Hlen.
  cbn [SkyObs.Timestamp SkyObs.Illuminance SkyObs.UV SkyObs.RainAccumulation
       SkyObs.WindLull SkyObs.WindAvg SkyObs.WindGust SkyObs.WindDirection
       SkyObs.Battery SkyObs.SolarRadiation SkyObs.LocalDayRainAccumulation
       SkyObs.PrecipitationType lookup_total list_lookup_total].
  destruct (math_IsNaN _) eqn:Hnan; cbn [negb];
    (destruct (config.Debug cfg); (eexists _, _; split; [reflexivity|]));
    cbn [Fields set_Fields set_Timestamp].
  all: rewrite ?dom_insert_L, !dom_list_to_map_L; cbn [fmap list_fmap fst].
  all: repeat split; try done.
  all: first [apply union_subseteq_l | apply union_subseteq_r].
Qed.

Lemma parseSkyObservation_short (cfg : Config) (report : Report) (m : Data) :
  len (at1_0 (Obs report)) < 14 ->
  parseSkyObservation cfg report m
  = (Return (m, Some (fmt_Errorf_w "" ErrInsufficientData
       (": expected 14 fields, got " +:+ fmt_d (len (at1_0 (Obs report)))))), []).
Proof. intros Hlt%Z.ltb_lt. unfold parseSkyObservation. by rewrite Hlt. Qed.

Lemma parseRainStartEvent_ok (cfg : Config) (report : Report) (m : Data) :
  1 <= len (Evt report) ->
  exists m' logs, parseRainStartEvent cfg report m = (Return (m', None), logs).
Proof.
  unfold parseRainStartEvent. generalize (Evt report). intros evt Hlen.
  destruct (len _ <? 1) eqn:Hlt; [apply Z.ltb_lt in Hlt; lia|]. clear Hlt.
  split_array evt 1. indexes.
  destruct (config.Debug cfg); by eexists _, _.
Qed.

Lemma parseLightningStrike_ok (cfg : Config) (report : Report) (m : Data) :
  3 <= len (Evt report) ->
  exists m' logs, parseLightningStrike cfg report m = (Return (m', None), logs).
Proof.
  unfold parseLightningStrike. generalize (Evt report). intros evt Hlen.
  destruct (len _ <? 3) eqn:Hlt; [apply Z.ltb_lt in Hlt; lia|]. clear Hlt.
  split_array evt 3. indexes.
  destruct (config.Debug cfg); by eexists _, _.
Qed.

Lemma parseRapidWind_ok (cfg : Config) (report : Report) (m : Data) :
  (len3 (Ob report) <? 3) = false
  ∧ ∃ m' logs,
      parseRapidWind cfg report m = (Return (m', None), logs)
      ∧ Fields m' = <["rapid_wind_speed" := fmt_f2 (at3_1 (Ob report))]>
          (<["rapid_wind_direction" :=
               fmt_d (int_of_float (math_Round (at3_2 (Ob report))))]> ∅)
      ∧ dom (Fields m') = {[ "rapid_wind_speed"; "rapid_wind_direction" ]}
      ∧ influx.Timestamp m' = int64_of_float (at3_0 (Ob report)).
Proof.
  split; [done|]. unfold parseRapidWind. cbn [len3 Z.ltb Z.compare Pos.compare Pos.compare_cont].
  cbn [RapidWind.Timestamp RapidWind.WindSpeed RapidWind.WindDirection].
  destruct (config.Debug cfg); (eexists _, _; split; [reflexivity|]);
    cbn [Fields set_Fields set_Timestamp influx.Timestamp]; by repeat split.
Qed.

Lemma parseObservation_errors cfg report m :
  insufficient_only (parseObservation cfg report m).
Proof.
  intros m' e. destruct (Z.lt_ge_cases (len (at1_0 (Obs report))) 18) as [Hlt|Hge].
  - rewrite parseObservation_short by done. intros [= _ <-]. by eexists.
  - by destruct (parseObservation_ok cfg report m Hge) as (? & ? & -> & _).
Qed.

Lemma parseAirObservation_errors cfg report m :
  insufficient_only (parseAirObservation cfg report m).
Proof.
  intros m' e. destruct (Z.lt_ge_cases (len (at1_0 (Obs report))) 8) as [Hlt|Hge].
  - rewrite parseAirObservation_short by done. intros [= _ <-]. by eexists.
  - by destruct (parseAirObservation_ok cfg report m Hge) as (? & ? & -> & _).
Qed.

Lemma parseSkyObservation_errors cfg report m :
  insufficient_only (parseSkyObservation cfg report m).
Proof.
  intros m' e. destruct (Z.lt_ge_cases (len (at1_0 (Obs report))) 14) as [Hlt|Hge].
  - rewrite parseSkyObservation_short by done. intros [= _ <-]. by eexists.
  - by destruct (parseSkyObservation_ok cfg report m Hge) as (? & ? & -> & _).
Qed.

Lemma parseRainStartEvent_errors cfg report m :
  insufficient_only (parseRainStartEvent cfg report m).
Proof.
  intros m' e. destruct (Z.lt_ge_cases (len (Evt report)) 1) as [Hlt|Hge].
  - unfold parseRainStartEvent. apply Z.ltb_lt in Hlt as ->. intros [= _ <-]. by eexists.
  - by destruct (parseRainStartEvent_ok cfg report m Hge) as (? & ? & ->).
Qed.

Lemma parseLightningStrike_errors cfg report m :
  insufficient_only (parseLightningStrike cfg report m).
Proof.
  intros m' e. destruct (Z.lt_ge_cases (len (Evt report)) 3) as [Hlt|Hge].
  - unfold parseLightningStrike. apply Z.ltb_lt in Hlt as ->. intros [= _ <-]. by eexists.
  - by destruct (parseLightningStrike_ok cfg report m Hge) as (? & ? & ->).
Qed.

Lemma parseRapidWind_errors cfg report m :
  insufficient_only (parseRapidWind cfg report m).
Proof.
  intros m' e. by destruct (parseRapidWind_ok cfg report m) as (_ & ? & ? & -> & _).
Qed.

Lemma parseDeviceStatus_errors cfg report m :
  insufficient_only (parseDeviceStatus cfg report m).
Proof. intros m' e. unfold parseDeviceStatus. by destruct (config.Debug cfg). Qed.

Lemma parseHubStatus_errors cfg report m :
  insufficient_only (parseHubStatus cfg report m).
Proof. intros m' e. unfold parseHubStatus. by destruct (config.Debug cfg). Qed.

(** The closing steps for an extractor that has run to its end. *)
Ltac extracted :=
  intros ? [= <-]; cbn [Name Bucket Tags Fields set_Fields set_Timestamp];
  repeat (split; [done|]);
  repeat (apply map_Forall_insert_2; [done|]);
  apply map_Forall_empty.

Lemma parseObservation_extracts cfg report m :
  extracts (parseObservation cfg report m) m.
Proof.
  destruct (Z.lt_ge_cases (len (at1_0 (Obs report))) 18) as [Hlt|Hge].
  { intros m'. by rewrite parseObservation_short. }
  revert Hge. unfold parseObservation. generalize (at1_0 (Obs report)). intros data Hlen.
  destruct (len _ <? 18); [done|]. split_array data 18. indexes.
  destruct (dewpoint_Calculate _ _) as [dp err].
  destruct (config.Debug cfg), err; extracted.
Qed.

Lemma parseAirObservation_extracts cfg report m :
  extracts (parseAirObservation cfg report m) m.
Proof.
  destruct (Z.lt_ge_cases (len (at1_0 (Obs report))) 8) as [Hlt|Hge].
  { intros m'. by rewrite parseAirObservation_short. }
  revert Hge. unfold parseAirObservation. generalize (at1_0 (Obs report)). intros data Hlen.
  destruct (len _ <? 8); [done|]. split_array data 8. indexes.
  destruct (dewpoint_Calculate _ _) as [dp err].
  destruct (config.Debug cfg), err; extracted.
Qed.

Lemma parseSkyObservation_extracts cfg report m :
  extracts (parseSkyObservation cfg report m) m.
Proof.
  destruct (Z.lt_ge_cases (len (at1_0 (Obs report))) 14) as [Hlt|Hge].
  { intros m'. by rewrite parseSkyObservation_short. }
  revert Hge. unfold parseSkyObservation. generalize (at1_0 (Obs report)). intros data Hlen.
  destruct (len _ <? 14); [done|]. split_array data 14. indexes.
  destruct (math_IsNaN _); cbn [negb]; destruct (config.Debug cfg); extracted.
Qed.

Lemma parseRainStartEvent_extracts cfg report m :
  extracts (parseRainStartEvent cfg report m) m.
Proof.
  unfold parseRainStartEvent. generalize (Evt report). intros evt.
  destruct (len _ <? 1) eqn:Hlt; [done|]. apply Z.ltb_ge in Hlt.
  split_array evt 1. indexes. destruct (config.Debug cfg); extracted.
Qed.

Lemma parseLightningStrike_extracts cfg report m :
  extracts (parseLightningStrike cfg report m) m.
Proof.
  unfold parseLightningStrike. generalize (Evt report). intros evt.
  destruct (len _ <? 3) eqn:Hlt; [done|]. apply Z.ltb_ge in Hlt.
  split_array evt 3. indexes. destruct (config.Debug cfg); extracted.
Qed.

Lemma parseRapidWind_extracts cfg report m :
  extracts (parseRapidWind cfg report m) m.
Proof.
  unfold parseRapidWind. cbn [len3 Z.ltb Z.compare Pos.compare Pos.compare_cont].
  destruct (config.Debug cfg); extracted.
Qed.

Lemma parseDeviceStatus_extracts cfg report m :
  extracts (parseDeviceStatus cfg report m) m.
Proof. unfold parseDeviceStatus. destruct (config.Debug cfg); extracted. Qed.

Lemma parseHubStatus_extracts cfg report m :
  extracts (parseHubStatus cfg report m) m.
Proof.
  unfold parseHubStatus.
  destruct (String.eqb _ _); cbn [negb]; destruct (config.Debug cfg); extracted.
Qed.

Create HintDb extractors.
#[local] Hint Resolve parseObservation_errors parseRapidWind_errors
  parseRainStartEvent_errors parseLightningStrike_errors parseAirObservation_errors
  parseSkyObservation_errors parseDeviceStatus_errors parseHubStatus_errors
  parseObservation_extracts parseRapidWind_extracts parseRainStartEvent_extracts
  parseLightningStrike_extracts parseAirObservation_extracts parseSkyObservation_extracts
  parseDeviceStatus_extracts parseHubStatus_extracts : extractors.

(** Entering [Parse] with a payload that decodes. *)
Ltac enter_Parse Hdec :=
  unfold Parse; destruct Hdec as [[Hn0 Hn1] Hdec]; unfold slice_to;
  rewrite (proj2 (Z.leb_le 0 _) Hn0), (proj2 (Z.leb_le _ _) Hn1); cbn [andb];
  rewrite run_bind_ret, Hdec.

(** Taking the case of the switch the discriminator names. *)
Ltac switch_on Htype :=
  rewrite Htype;
  repeat (first [rewrite String.eqb_refl
                | rewrite (proj2 (String.eqb_neq _ _)) by done]; cbv iota).

(** C1: an [obs_st] envelope whose observation array has exactly 18
    elements gives a record: the fields are exactly the fifteen keys, the
    float-valued quantities formatted to two decimals and the integer-valued
    ones as plain integers, the [station] tag is the envelope's serial
    number, and the timestamp is the array's first element (as [int64]). *)
Theorem Parse_obs_st (cfg : Config) (addr : UDPAddr) (b : list Byte.byte) (n : Z)
    (report : Report) :
  decodes b n report -> ReportType report = "obs_st" ->
  length (at1_0 (Obs report)) = 18%nat ->
  exists m, (Parse cfg addr b n).1 = Return (Some m, None) /\ obs_st_record report m.
Proof.
  intros Hdec Htype Hlen. enter_Parse Hdec. switch_on Htype. cbv zeta.
  destruct (parseObservation_ok cfg report
              (set_Name (set_Bucket New (Influx_Bucket cfg)) "weather"))
    as (m' & logs & -> & Hts & _ & _ & Htags & Hdom & Hfmt & Hdew & _).
  { unfold len. lia. }
  eexists. split; [reflexivity|]. unfold obs_st_record.
  cbn [Fields Tags influx.Timestamp set_Tag set_Tags].
  refine (conj Hdom (conj Hfmt (conj Hdew (conj _ Hts)))). apply lookup_insert_eq.
Qed.

Lemma append_empty_r (s : string) : s +:+ "" = s.
Proof.
  induction s as [|c s IH]; [done|].
  change (String c (s +:+ "") = String c s). by rewrite IH.
Qed.

(** C3: an [obs_st] envelope whose observation array has fewer than 18
    elements makes the extractor fail with the insufficient-data error,
    whose message carries the expected count 18 and the actual count;
    [Parse] returns that error wrapped under [parsing observation], and no
    record. *)
Theorem Parse_obs_st_short (cfg : Config) (addr : UDPAddr) (b : list Byte.byte) (n : Z)
    (report : Report) :
  decodes b n report -> ReportType report = "obs_st" ->
  len (at1_0 (Obs report)) < 18 ->
  let actual := fmt_d (len (at1_0 (Obs report))) in
  exists insufficient,
    (forall m, parseObservation cfg report m = (Return (m, Some insufficient), []))
    /\ errors_Is insufficient ErrInsufficientData = true
    /\ Error insufficient
       = "insufficient observation data: expected 18 fields, got " +:+ actual
    /\ Parse cfg addr b n
       = (Return (None, Some (fmt_Errorf_w "parsing observation: " insufficient "")), [])
    /\ Unwrap (fmt_Errorf_w "parsing observation: " insufficient "") = Some insufficient
    /\ Error (fmt_Errorf_w "parsing observation: " insufficient "")
       = "parsing observation: insufficient observation data: expected 18 fields, got "
           +:+ actual.
Proof.
  intros Hdec Htype Hlen actual. eexists. split; [|split; [|split; [|split; [|split]]]].
  - intros m. by apply parseObservation_short.
  - done.
  - done.
  - enter_Parse Hdec. switch_on Htype. cbv zeta.
    by rewrite parseObservation_short.
  - done.
  - cbn [Error fmt_Errorf_w]. by rewrite append_empty_r.
Qed.

(** C4: for an [obs_st] or [obs_air] envelope that passes its length check,
    an error from the dew-point routine does not reach the caller: [Parse]
    still returns a record, with a [dew_point] field formatted from the value
    the routine returned beside its error; the error goes to the log. *)
Theorem Parse_dew_point_failure (cfg : Config) (addr : UDPAddr) (b : list Byte.byte)
    (n : Z) (report : Report) (dp : float) (e : error) :
  decodes b n report ->
  let data := at1_0 (Obs report) in
  (ReportType report = "obs_st" /\ 18 <= len data
     /\ dewpoint_Calculate (data !!! 7%nat) (data !!! 8%nat) = (dp, Some e))
  \/ (ReportType report = "obs_air" /\ 8 <= len data
     /\ dewpoint_Calculate (data !!! 2%nat) (data !!! 3%nat) = (dp, Some e)) ->
  exists m logs,
    Parse cfg addr b n = (Return (Some m, None), logs)
    /\ Fields m !! "dew_point" = Some (fmt_f2 dp)
    /\ exists temp rh : float,
         Printf "dewpoint.Calculate(%f, %f): %v" [Operand temp; Operand rh; Operand e]
           ∈ logs.
Proof.
  intros Hdec data [(Htype & Hlen & Hcalc) | (Htype & Hlen & Hcalc)];
    enter_Parse Hdec; switch_on Htype; cbv zeta.
  - destruct (parseObservation_ok cfg report
                (set_Name (set_Bucket New (Influx_Bucket cfg)) "weather") Hlen)
      as (m' & logs & -> & _ & _ & _ & _ & _ & _ & Hdew & Hlog).
    fold data in Hdew, Hlog. rewrite Hcalc in Hdew, Hlog.
    eexists _, _. split; [reflexivity|]. split; [exact Hdew|].
    eexists _, _. rewrite app_nil_r. by apply Hlog.
  - destruct (parseAirObservation_ok cfg report
                (set_Name (set_Bucket New (Influx_Bucket cfg)) "weather") Hlen)
      as (m' & logs & -> & _ & _ & _ & Hdew & Hlog).
    fold data in Hdew, Hlog. rewrite Hcalc in Hdew, Hlog.
    eexists _, _. split; [reflexivity|]. split; [exact Hdew|].
    eexists _, _. rewrite app_nil_r. by apply Hlog.
Qed.

(** C5: with rapid-wind reporting disabled, a [rapid_wind] envelope gives
    no record and no error, whatever the envelope holds. *)
Theorem Parse_rapid_wind_disabled (cfg : Config) (addr : UDPAddr) (b : list Byte.byte)
    (n : Z) (report : Report) :
  decodes b n report -> ReportType report = "rapid_wind" -> Rapid_Wind cfg = false ->
  Parse cfg addr b n = (Return (None, None), []).
Proof.
  intros Hdec Htype Hoff. enter_Parse Hdec. switch_on Htype. by rewrite Hoff.
Qed.

(** Every error [Parse] returns comes without a record, and is either the
    text about a payload that did not decode or an extractor's
    insufficient-data error under the name of the operation. *)
Lemma Parse_errors (cfg : Config) (addr : UDPAddr) (b : list Byte.byte) (n : Z)
    (r : option Data) (e : error) :
  (Parse cfg addr b n).1 = Return (r, Some e) ->
  r = None
  /\ ((exists text, e = errorString text)
      \/ (exists operation counts,
            e = fmt_Errorf_w operation (fmt_Errorf_w "" ErrInsufficientData counts) "")).
Proof.
  unfold Parse, slice_to. destruct (_ && _); [|done]. rewrite run_bind_ret.
  destruct (json_Decode _) as [report|err].
  2: { intros [= <- <-]. eauto. }
  cbv zeta.
  repeat match goal with
  | |- context [if String.eqb ?x ?y then _ else _] => destruct (String.eqb x y)
  | |- context [if negb (Rapid_Wind cfg) then _ else _] => destruct (Rapid_Wind cfg); cbn [negb]
  end; try done.
  all: match goal with
       | |- context [?parse ?c ?r ?m0 ≫= _] =>
           let H := fresh "H" in
           assert (H : insufficient_only (parse c r m0)) by auto with extractors;
           destruct (parse c r m0) as [[[m' [e'|]]|msg] logs]; try done;
           destruct (H m' e' eq_refl) as [counts ->]
       end.
  all: intros [= <- <-]; eauto.
Qed.

(** C6: an envelope that decodes and whose discriminator is none of the
    eight report types gives no record and no error; and [Parse] never
    returns the invalid-report-type error, on any input. *)
Theorem Parse_unknown_type (cfg : Config) (addr : UDPAddr) (b : list Byte.byte) (n : Z)
    (report : Report) :
  decodes b n report -> ReportType report ∉ report_types ->
  Parse cfg addr b n = (Return (None, None), [])
  /\ forall cfg' addr' b' n' r e,
       (Parse cfg' addr' b' n').1 = Return (r, Some e) ->
       errors_Is e ErrInvalidReportType = false.
Proof.
  intros Hdec Hnot. split.
  - assert (forall t, t ∈ report_types -> String.eqb (ReportType report) t = false)
      as Hne.
    { intros t Ht. apply String.eqb_neq. intros Heq. apply Hnot. by rewrite Heq. }
    enter_Parse Hdec. by rewrite !Hne by (unfold report_types; repeat constructor).
  - intros cfg' addr' b' n' r e [_ [[text ->] | (op & counts & ->)]]%Parse_errors; done.
Qed.

(** C8: on an observation array of at least 14 elements the [obs_sky]
    extractor sets the ten fields [battery], [illuminance], [precipitation],
    [precipitation_type], [solar_radiation], [uv], [wind_avg],
    [wind_direction], [wind_gust], [wind_lull], and sets [daily_rain] exactly
    when the daily accumulation, element 11, is not NaN. *)
Theorem parseSkyObservation_fields (cfg : Config) (report : Report) (m : Data) :
  14 <= len (at1_0 (Obs report)) ->
  exists m' logs,
    parseSkyObservation cfg report m = (Return (m', None), logs)
    /\ obs_sky_keys ⊆ dom (Fields m')
    /\ ("daily_rain" ∈ dom (Fields m')
        <-> math_IsNaN (at1_0 (Obs report) !!! 11%nat) = false).
Proof.
  intros Hlen.
  destruct (parseSkyObservation_ok cfg report m Hlen)
    as (m' & logs & Hrun & Hten & _ & Hdaily & _).
  by exists m', logs.
Qed.

(** C10: [parseRapidWind] never returns an error.  [report.Ob] is an array
    of three numbers, so the test [len(report.Ob) < 3] is never true; for
    every report the extractor succeeds and sets exactly the two fields
    [rapid_wind_speed], to two decimals, and [rapid_wind_direction], a plain
    integer. *)
Theorem parseRapidWind_total (cfg : Config) (report : Report) (m : Data) :
  (len3 (Ob report) <? 3) = false
  /\ exists m' logs,
       parseRapidWind cfg report m = (Return (m', None), logs)
       /\ dom (Fields m') = {[ "rapid_wind_speed"; "rapid_wind_direction" ]}
       /\ Fields m' !! "rapid_wind_speed" = Some (fmt_f2 (at3_1 (Ob report)))
       /\ Fields m' !! "rapid_wind_direction"
          = Some (fmt_d (int_of_float (math_Round (at3_2 (Ob report))))).
Proof.
  destruct (parseRapidWind_ok cfg report m) as (Hlen & m' & logs & Hrun & Hf & Hdom & _).
  split; [exact Hlen|]. exists m', logs. rewrite Hf. by repeat split.
Qed.

(** The keys of every record [Parse] returns hold bytes above ['='] only:
    they are the letters and underscores of the field and tag names. *)
Lemma Parse_keys (cfg : Config) (addr : UDPAddr) (b : list Byte.byte) (n : Z)
    (m : Data) (e : option error) :
  (Parse cfg addr b n).1 = Return (Some m, e) ->
  keys_above_equals (Tags m) /\ keys_above_equals (Fields m).
Proof.
  unfold Parse, slice_to. destruct (_ && _); [|done]. rewrite run_bind_ret.
  destruct (json_Decode _) as [report|err]; [|done].
  cbv zeta.
  repeat match goal with
  | |- context [if String.eqb ?x ?y then _ else _] => destruct (String.eqb x y)
  | |- context [if negb (Rapid_Wind ?c) then _ else _] => destruct (Rapid_Wind c)
  | |- context [negb (String.eqb ?x ?y)] => destruct (String.eqb x y)
  end; cbn [negb]; try done.
  all: match goal with
       | |- context [?parse ?c ?r ?m0 ≫= _] =>
           let H := fresh "H" in
           assert (H : extracts (parse c r m0) m0) by auto with extractors;
           destruct (parse c r m0) as [[[m' [e'|]]|msg] logs]; try done;
           destruct (H m' eq_refl) as (_ & _ & Ht & Hf)
       end.
  all: intros [= <- <-]; cbn [Tags Fields set_Tag set_Tags set_Bucket]; rewrite Ht.
  all: split; [|done].
  all: repeat (apply map_Forall_insert_2; [done|]); apply map_Forall_empty.
Qed.

(** So the lines the pipeline sends are ascending by key, as the
    specification describes them. *)
Lemma Parse_line_by_key (cfg : Config) (addr : UDPAddr) (b : list Byte.byte) (n : Z)
    (m : Data) (e : option error) (s : string) :
  (Parse cfg addr b n).1 = Return (Some m, e) -> Marshals m s ->
  encodes_sorted_by by_key m s.
Proof.
  intros [Ht Hf]%Parse_keys ->%influx_facts.Marshals_unique.
  by apply influx_facts.Marshal_by_key.
Qed.

(** *** The other cases of the switch *)

Lemma parseRainStartEvent_short (cfg : Config) (report : Report) (m : Data) :
  len (Evt report) < 1 ->
  parseRainStartEvent cfg report m
  = (Return (m, Some (fmt_Errorf_w "" ErrInsufficientData ": expected 1 field in evt")), []).
Proof. intros Hlt%Z.ltb_lt. unfold parseRainStartEvent. by rewrite Hlt. Qed.

Lemma parseLightningStrike_short (cfg : Config) (report : Report) (m : Data) :
  len (Evt report) < 3 ->
  parseLightningStrike cfg report m
  = (Return (m, Some (fmt_Errorf_w "" ErrInsufficientData ": expected 3 fields in evt")), []).
Proof. intros Hlt%Z.ltb_lt. unfold parseLightningStrike. by rewrite Hlt. Qed.

Lemma parseRainStartEvent_run (cfg : Config) (report : Report) (m : Data) :
  1 <= len (Evt report) ->
  exists logs,
    parseRainStartEvent cfg report m
    = (Return (set_Fields (set_Timestamp m (int64_of_float (Evt report !!! 0%nat)))
                 (<["rain_start_event" := "1"]> ∅), None), logs).
Proof.
  unfold parseRainStartEvent. generalize (Evt report). intros evt Hlen.
  destruct (len _ <? 1) eqn:Hlt; [apply Z.ltb_lt in Hlt; lia|]. clear Hlt.
  split_array evt 1. indexes.
  destruct (config.Debug cfg); by eexists.
Qed.

Lemma parseLightningStrike_run (cfg : Config) (report : Report) (m : Data) :
  3 <= len (Evt report) ->
  exists logs,
    parseLightningStrike cfg report m
    = (Return (set_Fields (set_Timestamp m (int64_of_float (Evt report !!! 0%nat)))
                 (<["lightning_distance" :=
                      fmt_d (int_of_float (math_Round (Evt report !!! 1%nat)))]>
                    (<["lightning_energy" :=
                         fmt_d (int_of_float (math_Round (Evt report !!! 2%nat)))]> ∅)),
               None), logs).
Proof.
  unfold parseLightningStrike. generalize (Evt report). intros evt Hlen.
  destruct (len _ <? 3) eqn:Hlt; [apply Z.ltb_lt in Hlt; lia|]. clear Hlt.
  split_array evt 3. indexes.
  destruct (config.Debug cfg); by eexists.
Qed.

(** Every extractor returns: each index it takes is behind a length test. *)
Lemma parseObservation_returns cfg report m :
  exists v logs, parseObservation cfg report m = (Return v, logs).
Proof.
  destruct (Z.lt_ge_cases (len (at1_0 (Obs report))) 18) as [Hlt|Hge].
  - rewrite parseObservation_short by done. by eexists _, _.
  - destruct (parseObservation_ok cfg report m Hge) as (? & ? & -> & _). by eexists _, _.
Qed.

Lemma parseAirObservation_returns cfg report m :
  exists v logs, parseAirObservation cfg report m = (Return v, logs).
Proof.
  destruct (Z.lt_ge_cases (len (at1_0 (Obs report))) 8) as [Hlt|Hge].
  - rewrite parseAirObservation_short by done. by eexists _, _.
  - destruct (parseAirObservation_ok cfg report m Hge) as (? & ? & -> & _). by eexists _, _.
Qed.

Lemma parseSkyObservation_returns cfg report m :
  exists v logs, parseSkyObservation cfg report m = (Return v, logs).
Proof.
  destruct (Z.lt_ge_cases (len (at1_0 (Obs report))) 14) as [Hlt|Hge].
  - rewrite parseSkyObservation_short by done. by eexists _, _.
  - destruct (parseSkyObservation_ok cfg report m Hge) as (? & ? & -> & _). by eexists _, _.
Qed.

Lemma parseRainStartEvent_returns cfg report m :
  exists v logs, parseRainStartEvent cfg report m = (Return v, logs).
Proof.
  destruct (Z.lt_ge_cases (len (Evt report)) 1) as [Hlt|Hge].
  - rewrite parseRainStartEvent_short by done. by eexists _, _.
  - destruct (parseRainStartEvent_run cfg report m Hge) as (? & ->). by eexists _, _.
Qed.

Lemma parseLightningStrike_returns cfg report m :
  exists v logs, parseLightningStrike cfg report m = (Return v, logs).
Proof.
  destruct (Z.lt_ge_cases (len (Evt report)) 3) as [Hlt|Hge].
  - rewrite parseLightningStrike_short by done. by eexists _, _.
  - destruct (parseLightningStrike_run cfg report m Hge) as (? & ->). by eexists _, _.
Qed.

Lemma parseRapidWind_returns cfg report m :
  exists v logs, parseRapidWind cfg report m = (Return v, logs).
Proof.
  destruct (parseRapidWind_ok cfg report m) as (_ & ? & ? & -> & _). by eexists _, _.
Qed.

Lemma parseDeviceStatus_returns cfg report m :
  exists v logs, parseDeviceStatus cfg report m = (Return v, logs).
Proof. unfold parseDeviceStatus. destruct (config.Debug cfg); by eexists _, _. Qed.

Lemma parseHubStatus_returns cfg report m :
  exists v logs, parseHubStatus cfg report m = (Return v, logs).
Proof. unfold parseHubStatus. destruct (config.Debug cfg); by eexists _, _. Qed.

#[local] Hint Resolve parseObservation_returns parseRapidWind_returns
  parseRainStartEvent_returns parseLightningStrike_returns parseAirObservation_returns
  parseSkyObservation_returns parseDeviceStatus_returns parseHubStatus_returns : extractors.

(** Opening every case of the switch at once. *)
Ltac every_case :=
  repeat match goal with
  | |- context [if String.eqb ?x ?y then _ else _] => destruct (String.eqb x y)
  | |- context [if negb (Rapid_Wind ?c) then _ else _] => destruct (Rapid_Wind c)
  | |- context [negb (String.eqb ?x ?y)] => destruct (String.eqb x y)
  end; cbn [negb].


(** X2: an error from [Parse] never comes with a record.  It is neither
    of the sentinels no code returns, [ErrInvalidReportType] and
    [ErrDewPointCalculation]; it wraps [ErrInsufficientData], or it is the
    flat text about a payload that did not decode, which wraps nothing. *)
Theorem Parse_error_kinds (cfg : Config) (addr : UDPAddr) (b : list Byte.byte) (n : Z)
    (r : option Data) (e : error) :
  (Parse cfg addr b n).1 = Return (r, Some e) ->
  r = None
  /\ errors_Is e ErrDewPointCalculation = false
  /\ (errors_Is e ErrInsufficientData = true \/ Unwrap e = None).
Proof.
  intros [-> [[text ->] | (op & counts & ->)]]%Parse_errors; split; try done.
  - split; [done|by right].
  - split; [done|by left].
Qed.

Lemma length_append (s1 s2 : string) :
  String.length (s1 +:+ s2) = (String.length s1 + String.length s2)%nat.
Proof.
  induction s1 as [|c s1 IH]; [done|].
  change (S (String.length (s1 +:+ s2)) = S (String.length s1 + String.length s2)).
  by rewrite IH.
Qed.

(** X3: a payload the decoder rejects gives no record and one error, whose
    text names the byte count, the sender, the decoder's message and the
    payload itself.  The decoder's error is rendered into that text, not
    wrapped: [errors.Is] does not find it and [Unwrap] gives nothing.
    Nothing is logged. *)
Theorem Parse_decode_failure (cfg : Config) (addr : UDPAddr) (b : list Byte.byte) (n : Z)
    (err : error) :
  0 <= n <= len b -> json_Decode (take (Z.to_nat n) b) = inr err ->
  exists e,
    Parse cfg addr b n = (Return (None, Some e), [])
    /\ Error e = "ERROR Could not Unmarshal " +:+ fmt_d n +:+ " bytes from "
         +:+ UDPAddr_String addr +:+ ": " +:+ Error err +:+ ": "
         +:+ string_of_list_byte (take (Z.to_nat n) b)
    /\ Unwrap e = None
    /\ errors_Is e err = false.
Proof.
  intros [H0%Z.leb_le H1%Z.leb_le] Hdec. unfold Parse, slice_to.
  rewrite H0, H1. cbn [andb]. rewrite run_bind_ret, Hdec.
  eexists. split; [reflexivity|]. split; [done|]. split; [done|].
  cbn [errors_Is]. rewrite orb_false_r. apply bool_decide_eq_false_2.
  intros Heq. apply (f_equal Error), (f_equal String.length) in Heq.
  cbn [Error] in Heq. rewrite !length_append in Heq. cbn [String.length] in Heq. lia.
Qed.

(** With debugging off and a dew-point routine that does not fail, an
    extractor logs nothing. *)
Ltac silent Hdew :=
  match goal with
  | |- context [dewpoint_Calculate ?t ?rh] =>
      let H := fresh "H" in
      pose proof (Hdew t rh) as H; destruct (dewpoint_Calculate t rh) as [? [?|]];
      [done|reflexivity]
  | _ => reflexivity
  end.

Lemma parseObservation_quiet cfg report m :
  config.Debug cfg = false -> (forall t rh, (dewpoint_Calculate t rh).2 = None) ->
  (parseObservation cfg report m).2 = [].
Proof.
  intros Hdebug Hdew.
  destruct (Z.lt_ge_cases (len (at1_0 (Obs report))) 18) as [Hlt|Hge].
  { by rewrite parseObservation_short. }
  revert Hge. unfold parseObservation. generalize (at1_0 (Obs report)). intros data Hlen.
  destruct (len _ <? 18); [done|]. split_array data 18. indexes.
  rewrite Hdebug. cbn [Obs.AirTemperature Obs.RelativeHumidity]. silent Hdew.
Qed.

Lemma parseAirObservation_quiet cfg report m :
  config.Debug cfg = false -> (forall t rh, (dewpoint_Calculate t rh).2 = None) ->
  (parseAirObservation cfg report m).2 = [].
Proof.
  intros Hdebug Hdew.
  destruct (Z.lt_ge_cases (len (at1_0 (Obs report))) 8) as [Hlt|Hge].
  { by rewrite parseAirObservation_short. }
  revert Hge. unfold parseAirObservation. generalize (at1_0 (Obs report)). intros data Hlen.
  destruct (len _ <? 8); [done|]. split_array data 8. indexes.
  rewrite Hdebug. cbn [AirObs.AirTemperature AirObs.RelativeHumidity]. silent Hdew.
Qed.

Lemma parseSkyObservation_quiet cfg report m :
  config.Debug cfg = false -> (parseSkyObservation cfg report m).2 = [].
Proof.
  intros Hdebug.
  destruct (Z.lt_ge_cases (len (at1_0 (Obs report))) 14) as [Hlt|Hge].
  { by rewrite parseSkyObservation_short. }
  revert Hge. unfold parseSkyObservation. generalize (at1_0 (Obs report)). intros data Hlen.
  destruct (len _ <? 14); [done|]. split_array data 14. indexes.
  by rewrite Hdebug.
Qed.

Lemma parseRainStartEvent_quiet cfg report m :
  config.Debug cfg = false -> (parseRainStartEvent cfg report m).2 = [].
Proof.
  intros Hdebug. unfold parseRainStartEvent. generalize (Evt report). intros evt.
  destruct (len _ <? 1) eqn:Hlt; [done|]. apply Z.ltb_ge in Hlt.
  split_array evt 1. indexes. by rewrite Hdebug.
Qed.

Lemma parseLightningStrike_quiet cfg report m :
  config.Debug cfg = false -> (parseLightningStrike cfg report m).2 = [].
Proof.
  intros Hdebug. unfold parseLightningStrike. generalize (Evt report). intros evt.
  destruct (len _ <? 3) eqn:Hlt; [done|]. apply Z.ltb_ge in Hlt.
  split_array evt 3. indexes. by rewrite Hdebug.
Qed.

Lemma parseRapidWind_quiet cfg report m :
  config.Debug cfg = false -> (parseRapidWind cfg report m).2 = [].
Proof. intros Hdebug. unfold parseRapidWind. by rewrite Hdebug. Qed.

Lemma parseDeviceStatus_quiet cfg report m :
  config.Debug cfg = false -> (parseDeviceStatus cfg report m).2 = [].
Proof. intros Hdebug. unfold parseDeviceStatus. by rewrite Hdebug. Qed.

Lemma parseHubStatus_quiet cfg report m :
  config.Debug cfg = false -> (parseHubStatus cfg report m).2 = [].
Proof. intros Hdebug. unfold parseHubStatus. by rewrite Hdebug. Qed.

#[local] Hint Resolve parseObservation_quiet parseRapidWind_quiet
  parseRainStartEvent_quiet parseLightningStrike_quiet parseAirObservation_quiet
  parseSkyObservation_quiet parseDeviceStatus_quiet parseHubStatus_quiet : extractors.

(** X4: with debugging off, [Parse] writes to the log only when the
    dew-point routine fails: with a routine that does not fail the log stays
    empty on every payload, decodable or not. *)
Theorem Parse_quiet (cfg : Config) (addr : UDPAddr) (b : list Byte.byte) (n : Z) :
  config.Debug cfg = false -> (forall t rh, (dewpoint_Calculate t rh).2 = None) ->
  (Parse cfg addr b n).2 = [].
Proof.
  intros Hdebug Hdew. unfold Parse, slice_to. destruct (_ && _); [|done].
  rewrite run_bind_ret. destruct (json_Decode _) as [report|err]; [|done].
  cbv zeta. every_case; try done.
  all: match goal with
       | |- context [?parse ?c ?r ?m0 ≫= _] =>
           let H := fresh "H" in
           assert (H : (parse c r m0).2 = []) by auto with extractors;
           destruct (parse c r m0) as [[[m' [e'|]]|msg] logs]; cbn [snd] in H;
           by subst logs
       end.
Qed.

(** Comparing two string literals. *)
Ltac literal_tests :=
  repeat match goal with
  | |- context [String.eqb ?x ?y] =>
      let v := eval vm_compute in (String.eqb x y) in
      first [constr_eq v true | constr_eq v false];
      change (String.eqb x y) with v
  end.

(** Naming the case: the discriminator becomes the literal of its case. *)
Ltac named_case :=
  repeat match goal with
  | |- context [if String.eqb (ReportType ?r) ?y then _ else _] =>
      let Heq := fresh "Heq" in
      destruct (String.eqb_spec (ReportType r) y) as [Heq|?];
      [rewrite ?Heq; literal_tests|];
      cbn [orb andb negb]; cbv iota
  end.

(** X5: the record of a decoded report is filed by the table of the
    switch: the measurement and the tags follow the discriminator and the
    serial numbers, and the bucket is the default one except for rapid wind
    with a bucket of its own.  The extractors leave all three alone. *)
Theorem Parse_filing (cfg : Config) (addr : UDPAddr) (b : list Byte.byte) (n : Z)
    (report : Report) (m : Data) (e : option error) :
  decodes b n report -> (Parse cfg addr b n).1 = Return (Some m, e) ->
  Name m = measurement_of (ReportType report)
  /\ Tags m = tags_of report
  /\ Bucket m = bucket_of cfg (ReportType report).
Proof.
  intros Hdec. enter_Parse Hdec. unfold measurement_of, tags_of, bucket_of. cbv zeta.
  destruct (String.eqb (Influx_Bucket_Rapid_Wind cfg) "");
    (named_case; [..|done]); try (destruct (Rapid_Wind cfg); [|done]); cbn [negb].
  all: match goal with
       | |- context [?parse ?c ?r ?m0 ≫= _] =>
           let H := fresh "H" in
           assert (H : extracts (parse c r m0) m0) by auto with extractors;
           destruct (parse c r m0) as [[[m' [e'|]]|msg] logs]; try done;
           destruct (H m' eq_refl) as (Hn & Hb & Ht & _)
       end.
  all: intros [= <- <-]; cbn [Name Bucket Tags set_Tag set_Tags set_Bucket set_Name].
  all: by rewrite ?Hn, ?Hb, ?Ht.
Qed.

(** The two outcomes of a case on a report whose array length is known. *)
Ltac outcome_iff :=
  split; split;
  (let H := fresh "H" in
   intros H;
   first [ lia
         | by destruct H as (? & ?)
         | by destruct H as (? & ? & ?)
         | by eexists
         | (eexists; split; reflexivity) ]).

(** X6: for a decoded report of one of the eight types (rapid wind being
    enabled), [Parse] returns a record exactly when the positional array of
    that type has the type's least length, and otherwise exactly an error
    that wraps [ErrInsufficientData].  The status reports, which read no
    array, always give a record. *)
Theorem Parse_record_iff (cfg : Config) (addr : UDPAddr) (b : list Byte.byte) (n : Z)
    (report : Report) :
  decodes b n report -> ReportType report ∈ report_types ->
  (ReportType report = "rapid_wind" -> Rapid_Wind cfg = true) ->
  let have := len (positional report) in
  let need := minimum_length (ReportType report) in
  ((exists m, (Parse cfg addr b n).1 = Return (Some m, None)) <-> need <= have)
  /\ ((exists e, (Parse cfg addr b n).1 = Return (None, Some e)
                 /\ errors_Is e ErrInsufficientData = true) <-> have < need).
Proof.
  intros Hdec Hin Hrw. enter_Parse Hdec. unfold positional, minimum_length. cbv zeta.
  named_case.
  - destruct (Z.lt_ge_cases (len (at1_0 (Obs report))) 18) as [Hlt|Hge];
      [rewrite parseObservation_short by done
      |destruct (parseObservation_ok cfg report
                   (set_Name (set_Bucket New (Influx_Bucket cfg)) "weather") Hge)
         as (m' & logs & -> & _)]; outcome_iff.
  - rewrite (Hrw Heq). cbn [negb].
    destruct (parseRapidWind_ok cfg report
                (set_Name (set_Bucket New (Influx_Bucket cfg)) "weather"))
      as (_ & m' & logs & -> & _).
    unfold len. cbn [length]. outcome_iff.
  - destruct (Z.lt_ge_cases (len (Evt report)) 1) as [Hlt|Hge];
      [rewrite parseRainStartEvent_short by done
      |destruct (parseRainStartEvent_run cfg report
                   (set_Name (set_Bucket New (Influx_Bucket cfg)) "weather_events") Hge)
         as (logs & ->)].
    all: outcome_iff.
  - destruct (Z.lt_ge_cases (len (Evt report)) 3) as [Hlt|Hge];
      [rewrite parseLightningStrike_short by done
      |destruct (parseLightningStrike_run cfg report
                   (set_Name (set_Bucket New (Influx_Bucket cfg)) "weather_events") Hge)
         as (logs & ->)]; outcome_iff.
  - destruct (Z.lt_ge_cases (len (at1_0 (Obs report))) 8) as [Hlt|Hge];
      [rewrite parseAirObservation_short by done
      |destruct (parseAirObservation_ok cfg report
                   (set_Name (set_Bucket New (Influx_Bucket cfg)) "weather") Hge)
         as (m' & logs & -> & _)]; outcome_iff.
  - destruct (Z.lt_ge_cases (len (at1_0 (Obs report))) 14) as [Hlt|Hge];
      [rewrite parseSkyObservation_short by done
      |destruct (parseSkyObservation_ok cfg report
                   (set_Name (set_Bucket New (Influx_Bucket cfg)) "weather") Hge)
         as (m' & logs & -> & _)]; outcome_iff.
  - unfold parseDeviceStatus, len. cbn [length].
    destruct (config.Debug cfg); outcome_iff.
  - unfold parseHubStatus, len. cbn [length].
    destruct (String.eqb (ResetFlags report) ""), (config.Debug cfg); outcome_iff.
  - exfalso. unfold report_types in Hin.
    repeat (apply elem_of_cons in Hin as [Hin|Hin]; [done|]).
    by apply elem_of_nil in Hin.
Qed.

Lemma parseAirObservation_fields (cfg : Config) (report : Report) (m : Data) :
  let data := at1_0 (Obs report) in
  8 <= len data ->
  exists m' logs,
    parseAirObservation cfg report m = (Return (m', None), logs)
    /\ influx.Timestamp m' = int64_of_float (data !!! 0%nat)
    /\ dom (Fields m') = obs_air_keys
    /\ formats data obs_air_floats obs_air_integers (Fields m').
Proof.
  unfold parseAirObservation. generalize (at1_0 (Obs report)). intros data Hlen.
  destruct (len _ <? 8) eqn:Hlt; [apply Z.ltb_lt in Hlt; lia|]. clear Hlt.
  split_array data 8. indexes. clear Hlen.
  cbn [AirObs.Timestamp AirObs.StationPressure AirObs.AirTemperature
       AirObs.RelativeHumidity AirObs.StrikeCount AirObs.StrikeAvgDistance
       AirObs.Battery lookup_total list_lookup_total].
  destruct (dewpoint_Calculate _ _) as [dp err].
  destruct (config.Debug cfg), err; (eexists _, _; split; [reflexivity|]);
    cbn [influx.Timestamp Fields set_Fields set_Timestamp].
  all: split; [done|]. all: split; [done|].
  all: unfold formats, obs_air_floats, obs_air_integers; split; repeat constructor; done.
Qed.

Lemma parseSkyObservation_formats (cfg : Config) (report : Report) (m : Data) :
  let data := at1_0 (Obs report) in
  14 <= len data ->
  exists m' logs,
    parseSkyObservation cfg report m = (Return (m', None), logs)
    /\ influx.Timestamp m' = int64_of_float (data !!! 0%nat)
    /\ Name m' = Name m /\ Bucket m' = Bucket m /\ Tags m' = Tags m
    /\ dom (Fields m')
       = (if math_IsNaN (data !!! 11%nat) then obs_sky_keys
          else {["daily_rain"]} ∪ obs_sky_keys)
    /\ formats data obs_sky_floats obs_sky_integers (Fields m')
    /\ Fields m' !! "daily_rain"
       = (if math_IsNaN (data !!! 11%nat) then None
          else Some (fmt_f2 (data !!! 11%nat))).
Proof.
  unfold parseSkyObservation. generalize (at1_0 (Obs report)). intros data Hlen.
  destruct (len _ <? 14) eqn:Hlt; [apply Z.ltb_lt in Hlt; lia|]. clear Hlt.
  split_array data 14. indexes. clear Hlen.
  cbn [SkyObs.Timestamp SkyObs.Illuminance SkyObs.UV SkyObs.RainAccumulation
       SkyObs.WindLull SkyObs.WindAvg SkyObs.WindGust SkyObs.WindDirection
       SkyObs.Battery SkyObs.SolarRadiation SkyObs.LocalDayRainAccumulation
       SkyObs.PrecipitationType lookup_total list_lookup_total].
  destruct (math_IsNaN _) eqn:Hnan; cbn [negb];
    (destruct (config.Debug cfg); (eexists _, _; split; [reflexivity|]));
    cbn [influx.Timestamp Name Bucket Tags Fields set_Fields set_Timestamp].
  all: do 4 (split; [done|]).
  all: split; [by rewrite ?dom_insert_L, dom_list_to_map_L|].
  all: split; [|done].
  all: unfold formats, obs_sky_floats, obs_sky_integers; split; repeat constructor; done.
Qed.

(** *** Each case of the switch, on a decoded report *)

(** X7: with rapid-wind reporting enabled, a [rapid_wind] report always
    gives a record: the time is the first of the three numbers, the speed the
    second to two decimals, the direction the third rounded; the bucket is
    the rapid-wind bucket when one is configured and the default one
    otherwise. *)
Theorem Parse_rapid_wind (cfg : Config) (addr : UDPAddr) (b : list Byte.byte) (n : Z)
    (report : Report) :
  decodes b n report -> ReportType report = "rapid_wind" -> Rapid_Wind cfg = true ->
  (Parse cfg addr b n).1
  = Return (Some {|
      influx.Timestamp := int64_of_float (at3_0 (Ob report));
      Name := "weather";
      Bucket := if String.eqb (Influx_Bucket_Rapid_Wind cfg) "" then Influx_Bucket cfg
                else Influx_Bucket_Rapid_Wind cfg;
      Tags := <["station" := StationSerial report]> ∅;
      Fields := <["rapid_wind_speed" := fmt_f2 (at3_1 (Ob report))]>
                  (<["rapid_wind_direction" :=
                       fmt_d (int_of_float (math_Round (at3_2 (Ob report))))]> ∅) |},
            None).
Proof.
  intros Hdec Htype Hon. enter_Parse Hdec. switch_on Htype. rewrite Hon. cbn [negb].
  unfold parseRapidWind. cbn [len3 Z.ltb Z.compare Pos.compare Pos.compare_cont].
  by destruct (config.Debug cfg), (String.eqb (Influx_Bucket_Rapid_Wind cfg) "").
Qed.

(** X8: an [evt_precip] report with an empty event array gives the
    insufficient-data error under [parsing rain start event]; with any
    element it gives a [weather_events] record tagged [rain_start], timed by
    the first element, whose one field is the constant [rain_start_event=1]. *)
Theorem Parse_evt_precip (cfg : Config) (addr : UDPAddr) (b : list Byte.byte) (n : Z)
    (report : Report) :
  decodes b n report -> ReportType report = "evt_precip" ->
  match Evt report with
  | [] =>
      exists e,
        (Parse cfg addr b n).1 = Return (None, Some e)
        /\ errors_Is e ErrInsufficientData = true
        /\ Error e = "parsing rain start event: insufficient observation data: "
                     +:+ "expected 1 field in evt"
  | t :: _ =>
      (Parse cfg addr b n).1
      = Return (Some {|
          influx.Timestamp := int64_of_float t;
          Name := "weather_events";
          Bucket := Influx_Bucket cfg;
          Tags := <["event_type" := "rain_start"]>
                    (<["station" := StationSerial report]> ∅);
          Fields := <["rain_start_event" := "1"]> ∅ |}, None)
  end.
Proof.
  intros Hdec Htype. enter_Parse Hdec. switch_on Htype. cbv zeta.
  unfold parseRainStartEvent. destruct (Evt report) as [|t evt].
  - by eexists.
  - unfold len. cbn [length]. destruct (Z.of_nat _ <? 1) eqn:Hlt; [apply Z.ltb_lt in Hlt; lia|].
    indexes. by destruct (config.Debug cfg).
Qed.

(** X9: an [evt_strike] report with fewer than three event numbers gives
    the insufficient-data error under [parsing lightning strike]; with three
    or more it gives a [weather_events] record tagged [lightning_strike],
    timed by the first, with the distance and the energy rounded from the
    second and the third. *)
Theorem Parse_evt_strike (cfg : Config) (addr : UDPAddr) (b : list Byte.byte) (n : Z)
    (report : Report) :
  decodes b n report -> ReportType report = "evt_strike" ->
  match Evt report with
  | t :: distance :: energy :: _ =>
      (Parse cfg addr b n).1
      = Return (Some {|
          influx.Timestamp := int64_of_float t;
          Name := "weather_events";
          Bucket := Influx_Bucket cfg;
          Tags := <["event_type" := "lightning_strike"]>
                    (<["station" := StationSerial report]> ∅);
          Fields := <["lightning_distance" := fmt_d (int_of_float (math_Round distance))]>
                      (<["lightning_energy" := fmt_d (int_of_float (math_Round energy))]> ∅)
        |}, None)
  | _ =>
      exists e,
        (Parse cfg addr b n).1 = Return (None, Some e)
        /\ errors_Is e ErrInsufficientData = true
        /\ Error e = "parsing lightning strike: insufficient observation data: "
                     +:+ "expected 3 fields in evt"
  end.
Proof.
  intros Hdec Htype. enter_Parse Hdec. switch_on Htype. cbv zeta.
  unfold parseLightningStrike. destruct (Evt report) as [|t [|distance [|energy evt]]].
  1-3: by eexists.
  unfold len. cbn [length]. destruct (Z.of_nat _ <? 3) eqn:Hlt; [apply Z.ltb_lt in Hlt; lia|].
  indexes. by destruct (config.Debug cfg).
Qed.

(** X10: an [obs_air] report with at least eight numbers gives a record
    with exactly seven fields: pressure, temperature, humidity and battery
    to two decimals from places 1, 2, 3 and 6, the strike count and distance
    rounded from places 4 and 5, and the dew point of the temperature and the
    humidity; the report interval, place 7, is read and dropped. *)
Theorem Parse_obs_air (cfg : Config) (addr : UDPAddr) (b : list Byte.byte) (n : Z)
    (report : Report) :
  decodes b n report -> ReportType report = "obs_air" ->
  let data := at1_0 (Obs report) in
  8 <= len data ->
  exists m,
    (Parse cfg addr b n).1 = Return (Some m, None)
    /\ influx.Timestamp m = int64_of_float (data !!! 0%nat)
    /\ dom (Fields m) = obs_air_keys
    /\ formats data obs_air_floats obs_air_integers (Fields m)
    /\ Fields m !! "dew_point"
       = Some (fmt_f2 (dewpoint_Calculate (data !!! 2%nat) (data !!! 3%nat)).1).
Proof.
  intros Hdec Htype data Hlen. enter_Parse Hdec. switch_on Htype. cbv zeta.
  set (m0 := set_Name _ _).
  destruct (parseAirObservation_fields cfg report m0 Hlen)
    as (m' & logs & Hrun & Hts & Hdom & Hfmt).
  destruct (parseAirObservation_ok cfg report m0 Hlen)
    as (m'' & logs' & Hrun' & _ & _ & _ & Hdew & _).
  rewrite Hrun in Hrun'. injection Hrun' as <- <-. rewrite Hrun.
  by eexists.
Qed.

(** X11: an [obs_sky] report with at least fourteen numbers gives a
    record whose ten fields come from places 1 to 8, 10 and 12 ([uv] as an
    integer here, the others as in [obs_st]), with [daily_rain] from place 11
    added exactly when that number is not NaN. *)
Theorem Parse_obs_sky (cfg : Config) (addr : UDPAddr) (b : list Byte.byte) (n : Z)
    (report : Report) :
  decodes b n report -> ReportType report = "obs_sky" ->
  let data := at1_0 (Obs report) in
  14 <= len data ->
  exists m,
    (Parse cfg addr b n).1 = Return (Some m, None)
    /\ influx.Timestamp m = int64_of_float (data !!! 0%nat)
    /\ dom (Fields m)
       = (if math_IsNaN (data !!! 11%nat) then obs_sky_keys
          else {["daily_rain"]} ∪ obs_sky_keys)
    /\ formats data obs_sky_floats obs_sky_integers (Fields m)
    /\ Fields m !! "daily_rain"
       = (if math_IsNaN (data !!! 11%nat) then None
          else Some (fmt_f2 (data !!! 11%nat))).
Proof.
  intros Hdec Htype data Hlen. enter_Parse Hdec. switch_on Htype. cbv zeta.
  set (m0 := set_Name _ _).
  destruct (parseSkyObservation_formats cfg report m0 Hlen)
    as (m' & logs & -> & Hts & _ & _ & _ & Hdom & Hfmt & Hdaily).
  by eexists.
Qed.

(** X12: a [device_status] report always gives a record, whatever arrays
    it carries: measurement [device_status], tags [device] (the report's own
    serial number) and [hub], the report's timestamp, and six fields from
    the report's scalar members. *)
Theorem Parse_device_status (cfg : Config) (addr : UDPAddr) (b : list Byte.byte) (n : Z)
    (report : Report) :
  decodes b n report -> ReportType report = "device_status" ->
  (Parse cfg addr b n).1
  = Return (Some {|
      influx.Timestamp := Timestamp report;
      Name := "device_status";
      Bucket := Influx_Bucket cfg;
      Tags := <["hub" := HubSerial report]> (<["device" := StationSerial report]> ∅);
      Fields := list_to_map [
        ("device_uptime", fmt_d (Uptime report));
        ("device_voltage", fmt_f2 (Voltage report));
        ("device_rssi", fmt_f2 (RSSI report));
        ("device_hub_rssi", fmt_f2 (HubRSSI report));
        ("sensor_status", fmt_d (SensorStatus report));
        ("firmware_revision", fmt_d (FirmwareRevision report)) ] |}, None).
Proof.
  intros Hdec Htype. enter_Parse Hdec. switch_on Htype. cbv zeta.
  unfold parseDeviceStatus. by destruct (config.Debug cfg).
Qed.

(** X13: a [hub_status] report always gives a record: measurement
    [hub_status], one tag [hub] holding the report's own serial number, four
    fields from the report's scalar members, and [reset_flags] exactly when
    the report's reset flags are not the empty string. *)
Theorem Parse_hub_status (cfg : Config) (addr : UDPAddr) (b : list Byte.byte) (n : Z)
    (report : Report) :
  decodes b n report -> ReportType report = "hub_status" ->
  exists m,
    (Parse cfg addr b n).1 = Return (Some m, None)
    /\ influx.Timestamp m = Timestamp report
    /\ Name m = "hub_status" /\ Bucket m = Influx_Bucket cfg
    /\ Tags m = <["hub" := StationSerial report]> ∅
    /\ Fields m !! "hub_uptime" = Some (fmt_d (Uptime report))
    /\ Fields m !! "hub_rssi" = Some (fmt_f2 (RSSI report))
    /\ Fields m !! "firmware_revision" = Some (fmt_d (FirmwareRevision report))
    /\ Fields m !! "sequence" = Some (fmt_d (Seq report))
    /\ Fields m !! "reset_flags"
       = (if String.eqb (ResetFlags report) "" then None else Some (ResetFlags report))
    /\ dom (Fields m)
       = (if String.eqb (ResetFlags report) "" then hub_status_keys
          else {["reset_flags"]} ∪ hub_status_keys).
Proof.
  intros Hdec Htype. enter_Parse Hdec. switch_on Htype. cbv zeta.
  unfold parseHubStatus.
  destruct (String.eqb (ResetFlags report) ""), (config.Debug cfg); cbn [negb];
    (eexists; split; [reflexivity|]);
    cbn [influx.Timestamp Name Bucket Tags Fields set_Tag set_Tags set_Fields
         set_Timestamp set_Name set_Bucket New].
  all: do 9 (split; [done|]).
  all: by rewrite ?dom_insert_L, dom_list_to_map_L.
Qed.

(** X22: the length test of [obs_st] is a lower bound: an array of 18
    elements or more gives the record of the fifteen fields, read from the
    same places as for exactly 18. *)
Theorem Parse_obs_st_at_least (cfg : Config) (addr : UDPAddr) (b : list Byte.byte)
    (n : Z) (report : Report) :
  decodes b n report -> ReportType report = "obs_st" ->
  18 <= len (at1_0 (Obs report)) ->
  exists m, (Parse cfg addr b n).1 = Return (Some m, None) /\ obs_st_record report m.
Proof.
  intros Hdec Htype Hlen. enter_Parse Hdec. switch_on Htype. cbv zeta.
  destruct (parseObservation_ok cfg report
              (set_Name (set_Bucket New (Influx_Bucket cfg)) "weather") Hlen)
    as (m' & logs & -> & Hts & _ & _ & Htags & Hdom & Hfmt & Hdew & _).
  eexists. split; [reflexivity|]. unfold obs_st_record.
  cbn [Fields Tags influx.Timestamp set_Tag set_Tags].
  refine (conj Hdom (conj Hfmt (conj Hdew (conj _ Hts)))). apply lookup_insert_eq.
Qed.

(** X14: of an [obs_st] array the extractor uses the sixteen places 0 to
    4 and 6 to 16 only: the wind sample interval (place 5), the report
    interval (place 17) and whatever follows place 17 never reach the
    record.  Two reports that agree on the sixteen places give the same
    result. *)
Theorem parseObservation_places (cfg : Config) (report report' : Report) (m : Data) :
  let data := at1_0 (Obs report) in
  let data' := at1_0 (Obs report') in
  18 <= len data -> 18 <= len data' ->
  (forall i, i ∈ obs_st_places -> data !!! i = data' !!! i) ->
  (parseObservation cfg report m).1 = (parseObservation cfg report' m).1.
Proof.
  unfold parseObservation.
  generalize (at1_0 (Obs report)), (at1_0 (Obs report')). intros data data' Hlen Hlen' Hsame.
  destruct (len data <? 18) eqn:Hlt; [apply Z.ltb_lt in Hlt; lia|]. clear Hlt.
  destruct (len data' <? 18) eqn:Hlt; [apply Z.ltb_lt in Hlt; lia|]. clear Hlt.
  apply Forall_forall in Hsame. unfold obs_st_places in Hsame.
  split_array data 18. split_array data' 18. indexes.
  repeat (apply Forall_cons in Hsame as [Hi Hsame];
          cbn [lookup_total list_lookup_total] in Hi; subst).
  cbn [Obs.AirTemperature Obs.RelativeHumidity].
  destruct (dewpoint_Calculate _ _) as [dp err].
  by destruct (config.Debug cfg), err.
Qed.

(** What an extractor returns does not depend on the configuration: the
    debug flag adds to the log and changes nothing else. *)
Ltac same_result :=
  match goal with
  | |- context [dewpoint_Calculate ?t ?rh] =>
      destruct (dewpoint_Calculate t rh) as [? [?|]]
  | _ => idtac
  end;
  repeat match goal with
  | |- context [config.Debug ?c] => destruct (config.Debug c)
  end; reflexivity.

Lemma parseObservation_debug cfg cfg' report m :
  (parseObservation cfg report m).1 = (parseObservation cfg' report m).1.
Proof.
  unfold parseObservation. generalize (at1_0 (Obs report)). intros data.
  destruct (len _ <? 18) eqn:Hlt; [done|]. apply Z.ltb_ge in Hlt.
  split_array data 18. indexes. cbn [Obs.AirTemperature Obs.RelativeHumidity]. same_result.
Qed.

Lemma parseAirObservation_debug cfg cfg' report m :
  (parseAirObservation cfg report m).1 = (parseAirObservation cfg' report m).1.
Proof.
  unfold parseAirObservation. generalize (at1_0 (Obs report)). intros data.
  destruct (len _ <? 8) eqn:Hlt; [done|]. apply Z.ltb_ge in Hlt.
  split_array data 8. indexes. cbn [AirObs.AirTemperature AirObs.RelativeHumidity].
  same_result.
Qed.

Lemma parseSkyObservation_debug cfg cfg' report m :
  (parseSkyObservation cfg report m).1 = (parseSkyObservation cfg' report m).1.
Proof.
  unfold parseSkyObservation. generalize (at1_0 (Obs report)). intros data.
  destruct (len _ <? 14) eqn:Hlt; [done|]. apply Z.ltb_ge in Hlt.
  split_array data 14. indexes. same_result.
Qed.

Lemma parseRainStartEvent_debug cfg cfg' report m :
  (parseRainStartEvent cfg report m).1 = (parseRainStartEvent cfg' report m).1.
Proof.
  unfold parseRainStartEvent. generalize (Evt report). intros evt.
  destruct (len _ <? 1) eqn:Hlt; [done|]. apply Z.ltb_ge in Hlt.
  split_array evt 1. indexes. same_result.
Qed.

Lemma parseLightningStrike_debug cfg cfg' report m :
  (parseLightningStrike cfg report m).1 = (parseLightningStrike cfg' report m).1.
Proof.
  unfold parseLightningStrike. generalize (Evt report). intros evt.
  destruct (len _ <? 3) eqn:Hlt; [done|]. apply Z.ltb_ge in Hlt.
  split_array evt 3. indexes. same_result.
Qed.

Lemma parseRapidWind_debug cfg cfg' report m :
  (parseRapidWind cfg report m).1 = (parseRapidWind cfg' report m).1.
Proof. unfold parseRapidWind. destruct (len3 _ <? 3); [done|]. same_result. Qed.

Lemma parseDeviceStatus_debug cfg cfg' report m :
  (parseDeviceStatus cfg report m).1 = (parseDeviceStatus cfg' report m).1.
Proof. unfold parseDeviceStatus. same_result. Qed.

Lemma parseHubStatus_debug cfg cfg' report m :
  (parseHubStatus cfg report m).1 = (parseHubStatus cfg' report m).1.
Proof. unfold parseHubStatus. same_result. Qed.

(** The fact above for the extractor the goal runs. *)
Ltac extractor_debug c c' H :=
  match goal with
  | |- context [parseObservation _ ?r ?m0 ≫= _] =>
      pose proof (parseObservation_debug c c' r m0) as H
  | |- context [parseRapidWind _ ?r ?m0 ≫= _] =>
      pose proof (parseRapidWind_debug c c' r m0) as H
  | |- context [parseRainStartEvent _ ?r ?m0 ≫= _] =>
      pose proof (parseRainStartEvent_debug c c' r m0) as H
  | |- context [parseLightningStrike _ ?r ?m0 ≫= _] =>
      pose proof (parseLightningStrike_debug c c' r m0) as H
  | |- context [parseAirObservation _ ?r ?m0 ≫= _] =>
      pose proof (parseAirObservation_debug c c' r m0) as H
  | |- context [parseSkyObservation _ ?r ?m0 ≫= _] =>
      pose proof (parseSkyObservation_debug c c' r m0) as H
  | |- context [parseDeviceStatus _ ?r ?m0 ≫= _] =>
      pose proof (parseDeviceStatus_debug c c' r m0) as H
  | |- context [parseHubStatus _ ?r ?m0 ≫= _] =>
      pose proof (parseHubStatus_debug c c' r m0) as H
  end.

(** X15: of the configuration [Parse] reads four members.  Its result
    depends on the default bucket, the rapid-wind bucket and the rapid-wind
    flag; the debug flag changes the log only; the other members (addresses,
    token, buffer size, ...) change nothing. *)
Theorem Parse_configuration (cfg cfg' : Config) (addr : UDPAddr) (b : list Byte.byte)
    (n : Z) :
  Influx_Bucket cfg = Influx_Bucket cfg' ->
  Influx_Bucket_Rapid_Wind cfg = Influx_Bucket_Rapid_Wind cfg' ->
  Rapid_Wind cfg = Rapid_Wind cfg' ->
  (Parse cfg addr b n).1 = (Parse cfg' addr b n).1
  /\ (config.Debug cfg = config.Debug cfg' -> Parse cfg addr b n = Parse cfg' addr b n).
Proof.
  intros Hb Hrb Hrw. split.
  - unfold Parse, slice_to. destruct (_ && _); [|done]. rewrite !run_bind_ret.
    destruct (json_Decode _) as [report|err]; [|done].
    cbv zeta. rewrite <- Hb, <- Hrb, <- Hrw. every_case.
    all: first
      [ extractor_debug cfg cfg' H;
        match type of H with
        | (?x).1 = (?y).1 =>
            destruct x as [[[m1 e1]|msg1] logs1]; destruct y as [[[m2 e2]|msg2] logs2]
        end;
        cbn [fst] in H;
        first [ discriminate H
              | injection H as H1 H2; subst; by destruct e2
              | injection H as H1; subst; reflexivity ]
      | reflexivity ].
  - intros Hd. unfold Parse, parseObservation, parseRapidWind, parseRainStartEvent,
      parseLightningStrike, parseAirObservation, parseSkyObservation, parseDeviceStatus,
      parseHubStatus.
    by rewrite <- Hb, <- Hrb, <- Hrw, <- Hd.
Qed.

(** An extractor that succeeds has set a map with an entry. *)
Ltac filled :=
  intros ? [= <-]; cbn [Fields set_Fields set_Timestamp list_to_map foldr uncurry];
  apply insert_non_empty.

Lemma parseObservation_fills cfg report m : fills (parseObservation cfg report m).
Proof.
  destruct (Z.lt_ge_cases (len (at1_0 (Obs report))) 18) as [Hlt|Hge].
  { intros m'. by rewrite parseObservation_short. }
  revert Hge. unfold parseObservation. generalize (at1_0 (Obs report)). intros data Hlen.
  destruct (len _ <? 18); [done|]. split_array data 18. indexes.
  destruct (dewpoint_Calculate _ _) as [dp err].
  destruct (config.Debug cfg), err; filled.
Qed.

Lemma parseAirObservation_fills cfg report m : fills (parseAirObservation cfg report m).
Proof.
  destruct (Z.lt_ge_cases (len (at1_0 (Obs report))) 8) as [Hlt|Hge].
  { intros m'. by rewrite parseAirObservation_short. }
  revert Hge. unfold parseAirObservation. generalize (at1_0 (Obs report)). intros data Hlen.
  destruct (len _ <? 8); [done|]. split_array data 8. indexes.
  destruct (dewpoint_Calculate _ _) as [dp err].
  destruct (config.Debug cfg), err; filled.
Qed.

Lemma parseSkyObservation_fills cfg report m : fills (parseSkyObservation cfg report m).
Proof.
  destruct (Z.lt_ge_cases (len (at1_0 (Obs report))) 14) as [Hlt|Hge].
  { intros m'. by rewrite parseSkyObservation_short. }
  revert Hge. unfold parseSkyObservation. generalize (at1_0 (Obs report)). intros data Hlen.
  destruct (len _ <? 14); [done|]. split_array data 14. indexes.
  destruct (math_IsNaN _); cbn [negb]; destruct (config.Debug cfg); filled.
Qed.

Lemma parseRainStartEvent_fills cfg report m : fills (parseRainStartEvent cfg report m).
Proof.
  unfold parseRainStartEvent. generalize (Evt report). intros evt.
  destruct (len _ <? 1) eqn:Hlt; [done|]. apply Z.ltb_ge in Hlt.
  split_array evt 1. indexes. destruct (config.Debug cfg); filled.
Qed.

Lemma parseLightningStrike_fills cfg report m : fills (parseLightningStrike cfg report m).
Proof.
  unfold parseLightningStrike. generalize (Evt report). intros evt.
  destruct (len _ <? 3) eqn:Hlt; [done|]. apply Z.ltb_ge in Hlt.
  split_array evt 3. indexes. destruct (config.Debug cfg); filled.
Qed.

Lemma parseRapidWind_fills cfg report m : fills (parseRapidWind cfg report m).
Proof.
  unfold parseRapidWind. cbn [len3 Z.ltb Z.compare Pos.compare Pos.compare_cont].
  destruct (config.Debug cfg); filled.
Qed.

Lemma parseDeviceStatus_fills cfg report m : fills (parseDeviceStatus cfg report m).
Proof. unfold parseDeviceStatus. destruct (config.Debug cfg); filled. Qed.

Lemma parseHubStatus_fills cfg report m : fills (parseHubStatus cfg report m).
Proof.
  unfold parseHubStatus.
  destruct (String.eqb _ _); cbn [negb]; destruct (config.Debug cfg); filled.
Qed.

#[local] Hint Resolve parseObservation_fills parseRapidWind_fills
  parseRainStartEvent_fills parseLightningStrike_fills parseAirObservation_fills
  parseSkyObservation_fills parseDeviceStatus_fills parseHubStatus_fills : extractors.

Lemma Parse_filled (cfg : Config) (addr : UDPAddr) (b : list Byte.byte) (n : Z)
    (m : Data) (e : option error) :
  (Parse cfg addr b n).1 = Return (Some m, e) ->
  e = None /\ Tags m <> ∅ /\ Fields m <> ∅.
Proof.
  unfold Parse, slice_to. destruct (_ && _); [|done]. rewrite run_bind_ret.
  destruct (json_Decode _) as [report|err]; [|done].
  cbv zeta. every_case; try done.
  all: match goal with
       | |- context [?parse ?c ?r ?m0 ≫= _] =>
           let H := fresh "H" in
           assert (H : fills (parse c r m0)) by auto with extractors;
           destruct (parse c r m0) as [[[m' [e'|]]|msg] logs]; try done;
           specialize (H m' eq_refl)
       end.
  all: intros [= <- <-]; cbn [Tags Fields set_Tag set_Tags set_Bucket].
  all: split; [done|]; split; [apply insert_non_empty|done].
Qed.

(** X16: what [Parse] hands to [Marshal] is always fit for it.  A record
    never comes with an error, it has a tag and a field, and every line
    [Marshal] may give for it has the tag pairs and the field pairs
    ascending by key: the keys [Parse] writes are letters and underscores,
    all above ['=']. *)
Theorem Parse_then_Marshal (cfg : Config) (addr : UDPAddr) (b : list Byte.byte) (n : Z)
    (m : Data) (e : option error) (s : string) :
  (Parse cfg addr b n).1 = Return (Some m, e) -> Marshals m s ->
  e = None /\ Tags m <> ∅ /\ Fields m <> ∅ /\ encodes_sorted_by by_key m s.
Proof.
  intros Hrun Hs. destruct (Parse_filled _ _ _ _ _ _ Hrun) as (He & Ht & Hf).
  split; [done|]. split; [done|]. split; [done|].
  apply Parse_keys in Hrun as [Hkt Hkf]. apply influx_facts.Marshals_unique in Hs as ->.
  by apply influx_facts.Marshal_by_key.
Qed.

(** X17: [String] names the four precipitation types as the table
    [PrecipitationTypeStrings] does and answers [unknown] from 4 on; on a
    negative value the test [int(p) < len(types)] passes and the indexing
    panics. *)
Theorem PrecipType_String_cases (p : PrecipType) :
  PrecipType_String p
  = if p <? 0 then panic "index out of range"
    else mret (default "unknown" (PrecipitationTypeStrings !! Z.to_nat p)).
Proof.
  unfold PrecipType_String, index_at, PrecipitationTypeStrings. cbv zeta.
  destruct (Z.ltb_spec p 0) as [Hneg|Hpos].
  - destruct (Z.ltb_spec p (len ["none"; "rain"; "hail"; "rain+hail"])) as [_|Hge];
      [|unfold len in Hge; cbn [length] in Hge; lia].
    by destruct (Z.leb_spec 0 p) as [?|_]; [lia|].
  - destruct (Z.ltb_spec p (len ["none"; "rain"; "hail"; "rain+hail"])) as [Hlt|Hge];
      unfold len in *; cbn [length] in *.
    + destruct (Z.leb_spec 0 p) as [_|?]; [|lia]. cbn [andb].
      assert (p = 0 \/ p = 1 \/ p = 2 \/ p = 3) as [-> | [-> | [-> | ->]]] by lia; done.
    + rewrite (lookup_ge_None_2 _ (Z.to_nat p)); [done|]. cbn [length]. lia.
Qed.

End parser.

(** *** The theorems at the fixtures *)

Lemma decodes_stub (report : Report) (dew : float * option error) :
  decodes (imports := stub_imports (inl report) dew) payload 2 report.
Proof. split; [done | reflexivity]. Defined.

Lemma Parse_obs_st_witness :
  exists m,
    (Parse (imports := stub_imports (inl obs_st_report) dew_ok)
       test_config sender payload 2).1 = Return (Some m, None)
    /\ obs_st_record (imports := stub_imports (inl obs_st_report) dew_ok) obs_st_report m.
Proof.
  apply (Parse_obs_st (imports := stub_imports (inl obs_st_report) dew_ok)
           test_config sender payload 2 obs_st_report);
    [apply decodes_stub | reflexivity | reflexivity].
Defined.

Lemma Parse_obs_st_short_witness :
  exists insufficient,
    (forall m, parseObservation (imports := stub_imports (inl short_report) dew_ok)
                 test_config short_report m = (Return (m, Some insufficient), []))
    /\ errors_Is insufficient ErrInsufficientData = true
    /\ Error insufficient = "insufficient observation data: expected 18 fields, got 3"
    /\ Parse (imports := stub_imports (inl short_report) dew_ok) test_config sender payload 2
       = (Return (None, Some (fmt_Errorf_w "parsing observation: " insufficient "")), [])
    /\ Unwrap (fmt_Errorf_w "parsing observation: " insufficient "") = Some insufficient
    /\ Error (fmt_Errorf_w "parsing observation: " insufficient "")
       = "parsing observation: insufficient observation data: expected 18 fields, got 3".
Proof.
  apply (Parse_obs_st_short (imports := stub_imports (inl short_report) dew_ok)
           test_config sender payload 2 short_report);
    [apply decodes_stub | reflexivity | reflexivity].
Defined.

Lemma Parse_dew_point_failure_witness :
  exists m logs,
    Parse (imports := stub_imports (inl obs_air_report) dew_failed)
      test_config sender payload 2 = (Return (Some m, None), logs)
    /\ Fields m !! "dew_point" = Some "0.00"
    /\ exists temp rh : float,
         Printf "dewpoint.Calculate(%f, %f): %v"
           [Operand temp; Operand rh; Operand ErrDewPointCalculation] ∈ logs.
Proof.
  apply (Parse_dew_point_failure (imports := stub_imports (inl obs_air_report) dew_failed)
           test_config sender payload 2 obs_air_report 0%float ErrDewPointCalculation);
    [apply decodes_stub | right; repeat split; done].
Defined.

Lemma Parse_rapid_wind_disabled_witness :
  Parse (imports := stub_imports (inl rapid_wind_report) dew_ok) test_config sender payload 2
  = (Return (None, None), []).
Proof.
  apply (Parse_rapid_wind_disabled (imports := stub_imports (inl rapid_wind_report) dew_ok)
           test_config sender payload 2 rapid_wind_report);
    [apply decodes_stub | reflexivity | reflexivity].
Defined.

Lemma Parse_unknown_type_witness :
  Parse (imports := stub_imports (inl unknown_report) dew_ok) test_config sender payload 2
  = (Return (None, None), []).
Proof.
  apply (Parse_unknown_type (imports := stub_imports (inl unknown_report) dew_ok)
           test_config sender payload 2 unknown_report);
    [apply decodes_stub |].
  unfold report_types. intros Hin.
  repeat (apply elem_of_cons in Hin as [Hin|Hin]; [done|]).
  by apply elem_of_nil in Hin.
Defined.

Lemma parseSkyObservation_fields_witness :
  exists m' logs,
    parseSkyObservation test_config obs_sky_report New = (Return (m', None), logs)
    /\ obs_sky_keys ⊆ dom (Fields m')
    /\ ("daily_rain" ∈ dom (Fields m')
        <-> math_IsNaN (at1_0 (Obs obs_sky_report) !!! 11%nat) = false).
Proof.
  by apply (parseSkyObservation_fields test_config obs_sky_report New).
Defined.


Lemma Parse_error_kinds_witness :
  (None : option Data) = None
  /\ errors_Is (fmt_Errorf_w "parsing observation: "
                  (fmt_Errorf_w "" ErrInsufficientData ": expected 18 fields, got 3") "")
       ErrDewPointCalculation = false
  /\ (errors_Is (fmt_Errorf_w "parsing observation: "
                   (fmt_Errorf_w "" ErrInsufficientData ": expected 18 fields, got 3") "")
        ErrInsufficientData = true
      \/ Unwrap (fmt_Errorf_w "parsing observation: "
                   (fmt_Errorf_w "" ErrInsufficientData ": expected 18 fields, got 3") "")
         = None).
Proof.
  apply (Parse_error_kinds (imports := stub_imports (inl short_report) dew_ok)
           test_config sender payload 2).
  reflexivity.
Defined.

Lemma Parse_decode_failure_witness :
  exists e,
    Parse (imports := stub_imports (inr decode_error) dew_ok) test_config sender payload 2
    = (Return (None, Some e), [])
    /\ Error e = "ERROR Could not Unmarshal 2 bytes from 192.168.1.100:50222: "
                 +:+ "unexpected end of JSON input: {}"
    /\ Unwrap e = None
    /\ errors_Is e decode_error = false.
Proof.
  apply (Parse_decode_failure (imports := stub_imports (inr decode_error) dew_ok)
           test_config sender payload 2 decode_error); [done | reflexivity].
Defined.

Lemma Parse_quiet_witness :
  (Parse (imports := stub_imports (inl obs_st_report) dew_ok)
     test_config sender payload 2).2 = [].
Proof.
  apply (Parse_quiet (imports := stub_imports (inl obs_st_report) dew_ok)
           test_config sender payload 2); [reflexivity | intros t rh; reflexivity].
Defined.

Lemma Parse_filing_witness :
  exists m,
    (Parse (imports := stub_imports (inl rapid_wind_report) dew_ok)
       rapid_wind_config sender payload 2).1 = Return (Some m, None)
    /\ Name m = "weather"
    /\ Tags m = <["station" := "ST-123456"]> ∅
    /\ Bucket m = "rapid-wind-bucket".
Proof.
  eexists. split; [reflexivity|].
  apply (Parse_filing (imports := stub_imports (inl rapid_wind_report) dew_ok)
           rapid_wind_config sender payload 2 rapid_wind_report _ None);
    [apply decodes_stub | reflexivity].
Defined.

Lemma Parse_record_iff_witness :
  ((exists m, (Parse (imports := stub_imports (inl short_report) dew_ok)
                 test_config sender payload 2).1 = Return (Some m, None)) <-> 18 <= 3)
  /\ ((exists e, (Parse (imports := stub_imports (inl short_report) dew_ok)
                    test_config sender payload 2).1 = Return (None, Some e)
                 /\ errors_Is e ErrInsufficientData = true) <-> 3 < 18).
Proof.
  apply (Parse_record_iff (imports := stub_imports (inl short_report) dew_ok)
           test_config sender payload 2 short_report);
    [apply decodes_stub | unfold report_types; repeat constructor | done].
Defined.

Lemma Parse_rapid_wind_witness :
  (Parse (imports := stub_imports (inl rapid_wind_report) dew_ok)
     rapid_wind_config sender payload 2).1
  = Return (Some {|
      influx.Timestamp := 1640995200;
      Name := "weather";
      Bucket := "rapid-wind-bucket";
      Tags := <["station" := "ST-123456"]> ∅;
      Fields := <["rapid_wind_speed" := "5.50"]> (<["rapid_wind_direction" := "270"]> ∅) |},
            None).
Proof.
  apply (Parse_rapid_wind (imports := stub_imports (inl rapid_wind_report) dew_ok)
           rapid_wind_config sender payload 2 rapid_wind_report);
    [apply decodes_stub | reflexivity | reflexivity].
Defined.

Lemma Parse_evt_precip_witness :
  (Parse (imports := stub_imports (inl evt_precip_report) dew_ok)
     test_config sender payload 2).1
  = Return (Some {|
      influx.Timestamp := 1640995200;
      Name := "weather_events";
      Bucket := "test-bucket";
      Tags := <["event_type" := "rain_start"]> (<["station" := "ST-123456"]> ∅);
      Fields := <["rain_start_event" := "1"]> ∅ |}, None).
Proof.
  apply (Parse_evt_precip (imports := stub_imports (inl evt_precip_report) dew_ok)
           test_config sender payload 2 evt_precip_report);
    [apply decodes_stub | reflexivity].
Defined.

Lemma Parse_evt_strike_witness :
  (Parse (imports := stub_imports (inl evt_strike_report) dew_ok)
     test_config sender payload 2).1
  = Return (Some {|
      influx.Timestamp := 1640995200;
      Name := "weather_events";
      Bucket := "test-bucket";
      Tags := <["event_type" := "lightning_strike"]> (<["station" := "ST-123456"]> ∅);
      Fields := <["lightning_distance" := "27"]> (<["lightning_energy" := "3848"]> ∅) |},
            None).
Proof.
  apply (Parse_evt_strike (imports := stub_imports (inl evt_strike_report) dew_ok)
           test_config sender payload 2 evt_strike_report);
    [apply decodes_stub | reflexivity].
Defined.

Lemma Parse_obs_air_witness :
  exists m,
    (Parse (imports := stub_imports (inl obs_air_report) dew_ok)
       test_config sender payload 2).1 = Return (Some m, None)
    /\ influx.Timestamp m = 1640995200
    /\ dom (Fields m) = obs_air_keys
    /\ formats (at1_0 (Obs obs_air_report)) obs_air_floats obs_air_integers (Fields m)
    /\ Fields m !! "dew_point" = Some "18.50".
Proof.
  apply (Parse_obs_air (imports := stub_imports (inl obs_air_report) dew_ok)
           test_config sender payload 2 obs_air_report);
    [apply decodes_stub | reflexivity | done].
Defined.

Lemma Parse_obs_sky_witness :
  exists m,
    (Parse (imports := stub_imports (inl obs_sky_report) dew_ok)
       test_config sender payload 2).1 = Return (Some m, None)
    /\ influx.Timestamp m = 1640995200
    /\ dom (Fields m) = obs_sky_keys
    /\ formats (at1_0 (Obs obs_sky_report)) obs_sky_floats obs_sky_integers (Fields m)
    /\ Fields m !! "daily_rain" = None.
Proof.
  apply (Parse_obs_sky (imports := stub_imports (inl obs_sky_report) dew_ok)
           test_config sender payload 2 obs_sky_report);
    [apply decodes_stub | reflexivity | done].
Defined.

Lemma Parse_device_status_witness :
  (Parse (imports := stub_imports (inl device_status_report) dew_ok)
     test_config sender payload 2).1
  = Return (Some {|
      influx.Timestamp := 1640995200;
      Name := "device_status";
      Bucket := "test-bucket";
      Tags := <["hub" := "HB-000001"]> (<["device" := "ST-123456"]> ∅);
      Fields := list_to_map [
        ("device_uptime", "86400"); ("device_voltage", "2.50");
        ("device_rssi", "-62.00"); ("device_hub_rssi", "-55.50");
        ("sensor_status", "0"); ("firmware_revision", "171") ] |}, None).
Proof.
  apply (Parse_device_status (imports := stub_imports (inl device_status_report) dew_ok)
           test_config sender payload 2 device_status_report);
    [apply decodes_stub | reflexivity].
Defined.

Lemma Parse_hub_status_witness :
  exists m,
    (Parse (imports := stub_imports (inl hub_status_report) dew_ok)
       test_config sender payload 2).1 = Return (Some m, None)
    /\ influx.Timestamp m = 1640995200
    /\ Name m = "hub_status" /\ Bucket m = "test-bucket"
    /\ Tags m = <["hub" := "ST-123456"]> ∅
    /\ Fields m !! "hub_uptime" = Some "86400"
    /\ Fields m !! "hub_rssi" = Some "-62.00"
    /\ Fields m !! "firmware_revision" = Some "171"
    /\ Fields m !! "sequence" = Some "48"
    /\ Fields m !! "reset_flags" = Some "BOR,PIN,POR"
    /\ dom (Fields m) = {["reset_flags"]} ∪ hub_status_keys.
Proof.
  apply (Parse_hub_status (imports := stub_imports (inl hub_status_report) dew_ok)
           test_config sender payload 2 hub_status_report);
    [apply decodes_stub | reflexivity].
Defined.

Lemma Parse_obs_st_at_least_witness :
  exists m,
    (Parse (imports := stub_imports (inl obs_st_report') dew_ok)
       test_config sender payload 2).1 = Return (Some m, None)
    /\ obs_st_record (imports := stub_imports (inl obs_st_report') dew_ok) obs_st_report' m.
Proof.
  apply (Parse_obs_st_at_least (imports := stub_imports (inl obs_st_report') dew_ok)
           test_config sender payload 2 obs_st_report');
    [apply decodes_stub | reflexivity | done].
Defined.

Lemma parseObservation_places_witness :
  (parseObservation (imports := stub_imports (inl obs_st_report) dew_ok)
     test_config obs_st_report New).1
  = (parseObservation (imports := stub_imports (inl obs_st_report) dew_ok)
       test_config obs_st_report' New).1.
Proof.
  apply (parseObservation_places (imports := stub_imports (inl obs_st_report) dew_ok)
           test_config obs_st_report obs_st_report' New); [done | done |].
  intros i Hin. unfold obs_st_places in Hin.
  repeat (apply elem_of_cons in Hin as [-> | Hin]; [reflexivity|]).
  by apply elem_of_nil in Hin.
Defined.

Lemma Parse_configuration_witness :
  (Parse (imports := stub_imports (inl obs_st_report) dew_ok)
     test_config sender payload 2).1
  = (Parse (imports := stub_imports (inl obs_st_report) dew_ok)
       debug_config sender payload 2).1.
Proof.
  apply (Parse_configuration (imports := stub_imports (inl obs_st_report) dew_ok)
           test_config debug_config sender payload 2); reflexivity.
Defined.

Lemma Parse_then_Marshal_witness :
  exists m,
    (Parse (imports := stub_imports (inl obs_st_report) dew_ok)
       test_config sender payload 2).1 = Return (Some m, None)
    /\ (None : option error) = None /\ Tags m <> ∅ /\ Fields m <> ∅
    /\ encodes_sorted_by by_key m (Marshal m).
Proof.
  eexists. split; [reflexivity|].
  apply (Parse_then_Marshal (imports := stub_imports (inl obs_st_report) dew_ok)
           test_config sender payload 2 _ None);
    [reflexivity | apply influx_facts.Marshals_Marshal].
Defined.

(** *** The pipeline on the fixtures *)

Example obs_st_line :
  encoded (Parse (imports := stub_imports (inl obs_st_report) dew_ok)
             test_config sender payload 2)
  = Some ("weather,station=ST-123456 battery=3.75,dew_point=18.50,illuminance=50000,"
          +:+ "p=1013.25,precipitation=0.50,precipitation_type=0,solar_radiation=800,"
          +:+ "strike_count=2,strike_distance=5,temp=25.50,uv=5.25,wind_avg=2.25,"
          +:+ "wind_direction=180,wind_gust=3.75,wind_lull=1.50 1640995200" +:+ newline,
          "test-bucket").
Proof. by vm_compute. Qed.

(** The rapid-wind scenario of the specification: [ob = [1640995200, 5.5, 270]]
    with the flag on. *)
Example rapid_wind_line :
  encoded (Parse (imports := stub_imports (inl rapid_wind_report) dew_ok)
             rapid_wind_config sender payload 2)
  = Some ("weather,station=ST-123456 rapid_wind_direction=270,rapid_wind_speed=5.50 1640995200"
          +:+ newline, "rapid-wind-bucket").
Proof. by vm_compute. Qed.

(** An array with NaN in the place of the daily accumulation gets no
    [daily_rain]. *)
Example obs_sky_line :
  encoded (Parse (imports := stub_imports (inl obs_sky_report) dew_ok)
             test_config sender payload 2)
  = Some ("weather,sensor_type=sky,station=SK-000001 battery=3.25,illuminance=9000,"
          +:+ "precipitation=0.00,precipitation_type=0,solar_radiation=130,uv=10,"
          +:+ "wind_avg=4.50,wind_direction=187,wind_gust=7.50,wind_lull=2.50 1640995200"
          +:+ newline, "test-bucket").
Proof. by vm_compute. Qed.

(** A range that does not fit the buffer panics before anything is decoded. *)
Example slice_out_of_range :
  (Parse (imports := stub_imports (inl obs_st_report) dew_ok)
     test_config sender payload 3).1 = Panic "slice bounds out of range".
Proof. by vm_compute. Qed.

End tempest_facts.
